(** * GGUF processor (gguf_processor.cpp): a shallow embedding

    The request pipeline of [ai_blockchain::GGUFProcessor] is embedded as
    pure functions over an explicit processor state.  The llama.cpp
    backend ([llama.h]) and the clocks are external: the backend is an
    interface ([Llama]) and every clock reading is an argument.

    - [float] / [double] values are IEEE-754 values of [SpecFloat];
    - [int] and [long long] are [Z] with their two's-complement wrap
      ([long] is 64 bits wide, as on LP64 targets);
    - [std::string] is [string] (a sequence of bytes);
    - a [nlohmann::json] object with scalar members is a
      [gmap string jvalue]; [dump()] either yields the text of the
      object, for which the object itself stands, or throws the
      [type_error] of the JSON library for a string that is not
      well-formed UTF-8;
    - a C++ exception is the [throw] result of the [exn] type; from a
      function that has no handler left, it is the exception that
      leaves the function;
    - [processing_mutex_] and [global_mutex] serialise the calls, which
      are therefore taken one at a time; console output is left out. *)

From Stdlib Require Import ZArith String Ascii List Lia.
From Stdlib Require Import SpecFloat.
From stdpp Require Import base option list gmap strings pretty fin_maps.

Import ListNotations.
Local Open Scope Z_scope.

(** ** Machine integers *)

Module Int.

(** Two's-complement reduction of an unbounded integer to [bits] bits. *)
Definition wrap (bits : Z) (z : Z) : Z :=
  (z + 2 ^ (bits - 1)) mod 2 ^ bits - 2 ^ (bits - 1).

Definition INT_MAX : Z := 2 ^ 31 - 1.
Definition LLONG_MAX : Z := 2 ^ 63 - 1.

(** Conversion to [int] and to [long long]. *)
Definition to_int : Z -> Z := wrap 32.
Definition to_llong : Z -> Z := wrap 64.

End Int.

(** ** Floating point *)

Module Float.

Definition is_nan (x : spec_float) : bool :=
  match x with S754_nan => true | _ => false end.

(** C++ [a > b] and [a <= b] on floating-point operands. *)
Definition gt (a b : spec_float) : bool := SFltb b a.
Definition le (a b : spec_float) : bool := SFleb a b.

(** The position of a value that is not a NaN in the order of
    [SFcompare]: class first, then exponent and mantissa (mirrored for
    negative values). *)
Definition key (x : spec_float) : Z * Z * Z :=
  match x with
  | S754_nan => (0, 0, 0)
  | S754_zero _ => (0, 0, 0)
  | S754_infinity true => (-2, 0, 0)
  | S754_infinity false => (2, 0, 0)
  | S754_finite true m e => (-1, - e, - Z.pos m)
  | S754_finite false m e => (1, e, Z.pos m)
  end.

Definition key_lt (a b : Z * Z * Z) : Prop :=
  let '(a1, a2, a3) := a in
  let '(b1, b2, b3) := b in
  a1 < b1 \/ (a1 = b1 /\ (a2 < b2 \/ (a2 = b2 /\ a3 < b3))).

(** [double]: binary64. *)
Definition prec : Z := 53.
Definition emax : Z := 1024.

Definition mul : spec_float -> spec_float -> spec_float := SFmul prec emax.
Definition add : spec_float -> spec_float -> spec_float := SFadd prec emax.

(** Conversion of a [long long] to [double] (round to nearest even). *)
Definition of_Z (z : Z) : spec_float := binary_normalize prec emax z 0 false.

(** The literals [0.99] and [0.01] as binary64 values. *)
Definition c_0_99 : spec_float := S754_finite false 8917127262193582 (-53).
Definition c_0_01 : spec_float := S754_finite false 5764607523034235 (-59).

(** [1.0f], used by the scripted backend below. *)
Definition one : spec_float := S754_finite false 8388608 (-23).
Definition zero : spec_float := S754_zero false.

End Float.

(** ** Greedy sampling: the body of [GGUFProcessor::sample_token] *)

(** [logits[i]]: the array behind the pointer returned by
    [llama_get_logits]; reading past its end is undefined in the source
    and yields a NaN here. *)
Definition logit_at (logits : list spec_float) (i : nat) : spec_float :=
  nth i logits S754_nan.

(** One iteration of the [for] loop, on the pair
    [(best_token, best_logit)]. *)
Definition sample_step (logits : list spec_float)
    (best : Z * spec_float) (i : nat) : Z * spec_float :=
  if Float.gt (logit_at logits i) (snd best)
  then (Z.of_nat i, logit_at logits i)
  else best.

(** The loop [for (int i = 1; i < n_vocab; ++i)], started from
    [best_token = 0], [best_logit = logits[0]]. *)
Definition sample_loop (logits : list spec_float) (n_vocab : Z)
    : Z * spec_float :=
  fold_left (sample_step logits)
            (seq 1 (Z.to_nat n_vocab - 1))
            (0, logit_at logits 0).

Definition sample_token_of (logits : list spec_float) (n_vocab : Z) : Z :=
  fst (sample_loop logits n_vocab).

(** ** Exceptions *)

(** The result of a computation that may throw a [std::exception];
    [what] is the text of [e.what()]. *)
Inductive exn (A : Type) : Type :=
| ret (a : A)
| throw (what : string).
Arguments ret {A} a.
Arguments throw {A} what.

(** ** The llama.cpp backend ([llama.h], external) *)

Class Llama : Type := {
  llama_model : Type;
  llama_context : Type;
  (** [llama_load_model_from_file path n_gpu_layers use_mmap use_mlock];
      [None] is the null pointer. *)
  llama_load_model_from_file : string -> Z -> bool -> bool -> option llama_model;
  (** [llama_new_context_with_model model n_ctx n_batch n_threads]. *)
  llama_new_context_with_model : llama_model -> Z -> Z -> Z -> option llama_context;
  (** [llama_tokenize model text n_max]: the returned count and the
      contents of the [n_max]-element buffer after the call. *)
  llama_tokenize : llama_model -> string -> Z -> Z * list Z;
  (** [llama_eval ctx tokens n_tokens n_past n_threads]: the context
      after the call and the returned status. *)
  llama_eval : llama_context -> list Z -> Z -> Z -> Z -> llama_context * Z;
  llama_get_logits : llama_context -> list spec_float;
  llama_n_vocab : llama_model -> Z;
  llama_token_eos : llama_model -> Z;
  (** [llama_token_to_piece model token buf_size]: the returned count
      and the buffer contents. *)
  llama_token_to_piece : llama_model -> Z -> Z -> Z * string;
  (** [what()] of the [std::length_error] of [std::vector::resize]. *)
  length_error_what : string
}.

(** ** Well-formed UTF-8 *)

Module Utf8.

Definition byte (a : ascii) : Z := Z.of_N (N_of_ascii a).

Definition between (lo hi b : Z) : bool := (lo <=? b) && (b <=? hi).

Definition continuation (a : ascii) : bool := between 128 191 (byte a).

(** The byte sequences that the serialiser of the JSON library accepts
    in a string: the well-formed sequences of UTF-8 (no overlong form,
    no surrogate, nothing above U+10FFFF, no sequence cut short). *)
Fixpoint valid (s : string) : bool :=
  match s with
  | EmptyString => true
  | String a s1 =>
      let b := byte a in
      if b <=? 127 then valid s1
      else if between 194 223 b then
        match s1 with
        | String a1 s2 => continuation a1 && valid s2
        | _ => false
        end
      else if between 224 239 b then
        match s1 with
        | String a1 (String a2 s3) =>
            between (if b =? 224 then 160 else 128)
                    (if b =? 237 then 159 else 191) (byte a1)
            && continuation a2 && valid s3
        | _ => false
        end
      else if between 240 244 b then
        match s1 with
        | String a1 (String a2 (String a3 s4)) =>
            between (if b =? 240 then 144 else 128)
                    (if b =? 244 then 143 else 191) (byte a1)
            && continuation a2 && continuation a3 && valid s4
        | _ => false
        end
      else false
  end.

(** Strings of 7-bit characters. *)
Fixpoint ascii_only (s : string) : bool :=
  match s with
  | EmptyString => true
  | String a s1 => (byte a <=? 127) && ascii_only s1
  end.

End Utf8.

(** ** JSON objects: [nlohmann::json] with scalar members *)

Inductive jvalue : Type :=
| JBool (b : bool)
| JInt (z : Z)
| JString (s : string).

(** An object under construction; [response[k] = v] is [<[k:=v]>]. *)
Abbreviation json := (gmap string jvalue).

(** A member of the statistics object: a scalar or a [double]. *)
Inductive svalue : Type :=
| SBool (b : bool)
| SInt (z : Z)
| SString (s : string)
| SDouble (x : spec_float).

(** A member of the object of [getStats]: a scalar, or the nested
    [config] object. *)
Inductive stat : Type :=
| Leaf (v : svalue)
| Object (members : gmap string svalue).

Definition jvalue_utf8 (v : jvalue) : bool :=
  match v with
  | JString s => Utf8.valid s
  | _ => true
  end.

Definition svalue_utf8 (v : svalue) : bool :=
  match v with
  | SString s => Utf8.valid s
  | _ => true
  end.

(** Every key and every string of the object is well-formed UTF-8:
    what [dump()] needs to serialise it. *)
Definition json_utf8 (r : json) : bool :=
  bool_decide (map_Forall
                 (fun k v => Utf8.valid k = true /\ jvalue_utf8 v = true) r).

Definition members_utf8 (m : gmap string svalue) : bool :=
  bool_decide (map_Forall
                 (fun k v => Utf8.valid k = true /\ svalue_utf8 v = true) m).

Definition stat_utf8 (v : stat) : bool :=
  match v with
  | Leaf v => svalue_utf8 v
  | Object m => members_utf8 m
  end.

Definition stats_utf8 (r : gmap string stat) : bool :=
  bool_decide (map_Forall
                 (fun k v => Utf8.valid k = true /\ stat_utf8 v = true) r).

(** ** The exceptions of the libraries *)

(** The texts of the exceptions that the libraries throw: [what()] of
    the [type_error] of [dump()], which names the offending byte, for
    an envelope and for a statistics object.  These texts, like that of
    [std::length_error], are plain text, hence well-formed UTF-8. *)
Class Library `{L : Llama} : Type := {
  type_error_what : json -> string;
  stats_type_error_what : gmap string stat -> string;
  type_error_what_utf8 : forall r, Utf8.valid (type_error_what r) = true;
  length_error_what_utf8 : Utf8.valid length_error_what = true
}.

(** The clock readings of a request: [duration.count()] in
    milliseconds, [system_clock::now().time_since_epoch().count()] when
    the envelope is built and, when [dump()] throws inside the [try]
    block, the reading taken by the handler. *)
Record Clock : Type := {
  elapsed_ms : Z;
  epoch_now : Z;
  epoch_caught : Z
}.

(** ** [GGUFProcessor] *)

(** [struct Config]; the sampling parameters ([temperature], [top_p],
    [top_k], [repeat_penalty]) are never read by the greedy sampler. *)
Record Config : Type := {
  n_threads : Z;
  n_ctx : Z;
  n_batch : Z;
  n_gpu_layers : Z;
  n_predict : Z;
  use_mmap : bool;
  use_mlock : bool
}.

Definition default_config : Config :=
  {| n_threads := 4; n_ctx := 4096; n_batch := 512; n_gpu_layers := 35;
     n_predict := 256; use_mmap := true; use_mlock := false |}.

(** ** Evaluation: the context and the calls made on it *)

Section Evaluation.

Context `{L : Llama}.

(** The context threaded through a generation, with the log of the
    [llama_eval] calls made on it (tokens and [n_past] of each call,
    latest first). *)
Record World : Type := {
  w_ctx : llama_context;
  w_evals : list (list Z * Z)
}.

Definition start_world (ctx : llama_context) : World :=
  {| w_ctx := ctx; w_evals := [] |}.

(** Computations over the context that may throw. *)
Definition Run (A : Type) : Type := World -> World * exn A.

Definition pure {A} (a : A) : Run A := fun w => (w, ret a).
Definition raise {A} (what : string) : Run A := fun w => (w, throw what).
Definition bind {A B} (m : Run A) (k : A -> Run B) : Run B :=
  fun w =>
    match m w with
    | (w', ret a) => k a w'
    | (w', throw what) => (w', throw what)
    end.

(** A call [llama_eval(ctx_, tokens, n_tokens, n_past, n_threads)]. *)
Definition eval_call (tokens : list Z) (n_tokens n_past n_thr : Z) : Run Z :=
  fun w =>
    let '(ctx', status) := llama_eval (w_ctx w) tokens n_tokens n_past n_thr in
    ({| w_ctx := ctx'; w_evals := (tokens, n_past) :: w_evals w |},
     ret status).

(** [sample_token()]: the sampler reads the logits of the current
    context and the vocabulary size of the model. *)
Definition sample_token (model : llama_model) : Run Z :=
  fun w =>
    (w, ret (sample_token_of (llama_get_logits (w_ctx w))
                             (llama_n_vocab model))).

End Evaluation.

Declare Scope run_scope.
Delimit Scope run_scope with run.
Notation "'do' x <- m ; k" := (bind m (fun x => k))
  (at level 10, x name, m at level 100, k at level 200) : run_scope.

Section Processor.

Context `{L : Llama} {J : Library}.

Record GGUFProcessor : Type := {
  model_ : option llama_model;
  ctx_ : option llama_context;
  model_path_ : string;
  model_hash_ : string;
  total_tokens_processed_ : Z;
  total_requests_processed_ : Z;
  average_processing_time_ : spec_float;
  config_ : Config
}.

(** [GGUFProcessor() = default]. *)
Definition new_processor : GGUFProcessor :=
  {| model_ := None; ctx_ := None; model_path_ := ""; model_hash_ := "";
     total_tokens_processed_ := 0; total_requests_processed_ := 0;
     average_processing_time_ := Float.zero; config_ := default_config |}.

(** Assignments to groups of members. *)
Definition set_paths (p : GGUFProcessor) (path hash : string) : GGUFProcessor :=
  {| model_ := model_ p; ctx_ := ctx_ p;
     model_path_ := path; model_hash_ := hash;
     total_tokens_processed_ := total_tokens_processed_ p;
     total_requests_processed_ := total_requests_processed_ p;
     average_processing_time_ := average_processing_time_ p;
     config_ := config_ p |}.

Definition set_pointers (p : GGUFProcessor)
    (m : option llama_model) (x : option llama_context) : GGUFProcessor :=
  {| model_ := m; ctx_ := x;
     model_path_ := model_path_ p; model_hash_ := model_hash_ p;
     total_tokens_processed_ := total_tokens_processed_ p;
     total_requests_processed_ := total_requests_processed_ p;
     average_processing_time_ := average_processing_time_ p;
     config_ := config_ p |}.

Definition set_stats (p : GGUFProcessor)
    (tokens requests : Z) (avg : spec_float) : GGUFProcessor :=
  {| model_ := model_ p; ctx_ := ctx_ p;
     model_path_ := model_path_ p; model_hash_ := model_hash_ p;
     total_tokens_processed_ := tokens;
     total_requests_processed_ := requests;
     average_processing_time_ := avg;
     config_ := config_ p |}.

Definition isModelLoaded (p : GGUFProcessor) : bool :=
  match model_ p, ctx_ p with
  | Some _, Some _ => true
  | _, _ => false
  end.

Definition initialize (p : GGUFProcessor) (model_path : string)
    : GGUFProcessor * bool :=
  let p := set_paths p model_path
             "QmXT2xkFnG7FP7NTfmDfDFcQLSfCJ3xfPnjCg76gFnq1Hr" in
  let c := config_ p in
  match llama_load_model_from_file model_path (n_gpu_layers c)
                                   (use_mmap c) (use_mlock c) with
  | None => (set_pointers p None (ctx_ p), false)
  | Some m =>
      match llama_new_context_with_model m (n_ctx c) (n_batch c)
                                         (n_threads c) with
      | None => (set_pointers p None None, false)
      | Some x => (set_pointers p (Some m) (Some x), true)
      end
  end.

(** *** [tokenize] *)

(** [std::vector<int>::resize(n)] on a vector holding [buf]. *)
Definition resize (n : nat) (buf : list Z) : list Z :=
  firstn n buf ++ repeat 0 (n - length buf).

(** A negative count converted to [size_t] exceeds [max_size()], so
    [resize] throws [std::length_error]. *)
Definition tokenize (model : llama_model) (text : string) : Run (list Z) :=
  let n_max := Z.of_nat (String.length text) + 4 in
  let '(n_tokens, buf) := llama_tokenize model text n_max in
  if n_tokens <? 0 then raise length_error_what
  else pure (resize (Z.to_nat n_tokens) buf).

(** *** [generate] *)

(** [prompt_tokens.size() + response_tokens.size()] passed as the
    [int n_past]. *)
Definition n_past_of (prompt_tokens response_tokens : list Z) : Z :=
  Int.to_int (Z.of_nat (length prompt_tokens + length response_tokens)).

(** The loop [for (int i = 0; i < n_predict; ++i)], with [remaining]
    iterations left and [response_tokens] produced so far. *)
Fixpoint generate_loop (model : llama_model) (n_thr : Z)
    (prompt_tokens : list Z) (remaining : nat) (response_tokens : list Z)
    : Run (list Z) :=
  match remaining with
  | O => pure response_tokens
  | S remaining' =>
      (do token <- sample_token model;
       if token =? llama_token_eos model then pure response_tokens
       else
         let response_tokens := response_tokens ++ [token] in
         do status <- eval_call [token] 1
                        (n_past_of prompt_tokens response_tokens) n_thr;
         if negb (status =? 0) then raise "Failed to evaluate token"
         else generate_loop model n_thr prompt_tokens remaining'
                            response_tokens)%run
  end.

Definition generate (model : llama_model) (c : Config)
    (prompt_tokens : list Z) : Run (list Z) :=
  (do status <- eval_call prompt_tokens
                  (Int.to_int (Z.of_nat (length prompt_tokens))) 0
                  (n_threads c);
   if negb (status =? 0) then raise "Failed to evaluate prompt"
   else generate_loop model (n_threads c) prompt_tokens
                      (Z.to_nat (n_predict c)) [])%run.

(** *** [detokenize] *)

Definition detokenize (model : llama_model) (tokens : list Z) : string :=
  fold_left
    (fun result token =>
       let '(n_chars, buf) := llama_token_to_piece model token 256 in
       if 0 <? n_chars
       then (result +:+ String.substring 0 (Z.to_nat n_chars) buf)
       else result)
    tokens "".

(** *** Response envelopes *)

(** [response.dump()]: the text of the object, for which the object
    stands, or the [type_error] of the library. *)
Definition dump (r : json) : exn json :=
  if json_utf8 r then ret r else throw (type_error_what r).

(** The object that [createSuccessResponse] builds. *)
Definition success_object (text request_id : string)
    (processing_time now : Z) : json :=
  <["timestamp" := JInt now]>
  (<["model" := JString "gemma-3-270m-q4_0"]>
  (<["processing_time_ms" := JInt processing_time]>
  (<["response" := JString text]>
  (<["request_id" := JString request_id]>
  (<["success" := JBool true]> ∅))))).

Definition createSuccessResponse (text request_id : string)
    (processing_time now : Z) : exn json :=
  dump (success_object text request_id processing_time now).

(** The object that [createErrorResponse] builds. *)
Definition error_object (error request_id : string) (now : Z) : json :=
  <["timestamp" := JInt now]>
  (<["error" := JString error]>
  (<["request_id" := JString request_id]>
  (<["success" := JBool false]> ∅))).

Definition createErrorResponse (error request_id : string) (now : Z)
    : exn json :=
  dump (error_object error request_id now).

(** *** [processRequest] *)

(** The body of the [try] block up to the end of generation. *)
Definition run_inference (model : llama_model) (c : Config)
    (prompt : string) : Run (list Z * list Z) :=
  (do tokens <- tokenize model prompt;
   do response_tokens <- generate model c tokens;
   pure (tokens, response_tokens))%run.

(** [average_processing_time_ * 0.99 + current_time * 0.01]. *)
Definition moving_average (avg : spec_float) (elapsed : Z) : spec_float :=
  Float.add (Float.mul avg Float.c_0_99)
            (Float.mul (Float.of_Z elapsed) Float.c_0_01).

Definition update_statistics (p : GGUFProcessor)
    (tokens response_tokens : list Z) (elapsed : Z) : GGUFProcessor :=
  set_stats p
    (Int.to_llong (total_tokens_processed_ p
                   + Z.of_nat (length tokens + length response_tokens)))
    (Int.to_llong (total_requests_processed_ p + 1))
    (moving_average (average_processing_time_ p) elapsed).

(** The result is the response, or the exception that leaves
    [processRequest]: the one thrown by [createErrorResponse] before the
    [try] block or inside its handler.  An exception of
    [createSuccessResponse] is thrown inside the [try] block, after the
    statistics were updated, and is caught. *)
Definition processRequest (p : GGUFProcessor) (prompt request_id : string)
    (clk : Clock) : GGUFProcessor * exn json :=
  match model_ p, ctx_ p with
  | Some model, Some ctx =>
      match run_inference model (config_ p) prompt (start_world ctx) with
      | (w, ret (tokens, response_tokens)) =>
          let p := set_pointers p (Some model) (Some (w_ctx w)) in
          let response_text := detokenize model response_tokens in
          let p := update_statistics p tokens response_tokens
                                     (elapsed_ms clk) in
          match createSuccessResponse response_text request_id
                                      (elapsed_ms clk) (epoch_now clk) with
          | ret r => (p, ret r)
          | throw what =>
              (p, createErrorResponse what request_id (epoch_caught clk))
          end
      | (w, throw what) =>
          (set_pointers p (Some model) (Some (w_ctx w)),
           createErrorResponse what request_id (epoch_now clk))
      end
  | _, _ =>
      (p, createErrorResponse "Model not loaded" request_id (epoch_now clk))
  end.

(** The [llama_eval] calls made while serving a request. *)
Definition evals_of_request (p : GGUFProcessor) (prompt : string)
    : list (list Z * Z) :=
  match model_ p, ctx_ p with
  | Some model, Some ctx =>
      w_evals (fst (run_inference model (config_ p) prompt (start_world ctx)))
  | _, _ => []
  end.

(** ** The exported entry points *)

(** The literal returned while [global_processor] is null, as the
    object it spells. *)
Definition not_initialized_response : json :=
  <["error" := JString "Processor not initialized"]>
  (<["success" := JBool false]> ∅).

Definition initialize_processor (model_path : string)
    : option GGUFProcessor * bool :=
  let '(p, ok) := initialize new_processor model_path in (Some p, ok).

(** An exception of [processRequest] meets no handler here and leaves
    the exported function. *)
Definition process_request (global_processor : option GGUFProcessor)
    (prompt request_id : string) (clk : Clock)
    : option GGUFProcessor * exn json :=
  match global_processor with
  | None => (None, ret not_initialized_response)
  | Some p =>
      let '(p', last_result) := processRequest p prompt request_id clk in
      (Some p', last_result)
  end.

(** ** The interactive loop of [main] *)

(** A request made by the loop and the result it got. *)
Record Submission : Type := {
  sub_request_id : string;
  sub_prompt : string;
  sub_result : json
}.

(** How the run over the lines read so far stands: the loop was left at
    [quit] or [exit], it waits for the next line, or an exception of
    [processRequest], which [main] does not catch, ended the program. *)
Inductive LoopEnd : Type :=
| AtQuit
| OutOfLines
| Uncaught (what : string).

(** ["local_" + std::to_string(request_count)]. *)
Definition local_id (request_count : Z) : string :=
  "local_" +:+ pretty request_count.

(** The [while (true)] loop.  [lines] holds, iteration by iteration,
    the value of [prompt] after the call of [std::getline], with the
    clock readings of the request made in that iteration.  The loop is
    left only at [quit] or [exit] (or by an exception that
    [processRequest] lets through); a run over lines that hold neither
    is a prefix of an interaction that goes on: at the end of the input
    [std::getline] fails and the loop keeps iterating.  [request_count]
    is an [int]: its increment overflows (undefined in the source, the
    wrap here) only after [INT_MAX] requests. *)
Fixpoint interactive_loop (lines : list (string * Clock))
    (request_count : Z) (p : GGUFProcessor)
    : list Submission * Z * GGUFProcessor * LoopEnd :=
  match lines with
  | [] => ([], request_count, p, OutOfLines)
  | (prompt, clk) :: lines' =>
      if bool_decide (prompt = "quit" \/ prompt = "exit")
      then ([], request_count, p, AtQuit)
      else if bool_decide (prompt = "")
      then interactive_loop lines' request_count p
      else
        let request_count := Int.to_int (request_count + 1) in
        let request_id := local_id request_count in
        match processRequest p prompt request_id clk with
        | (p', ret result) =>
            let '(subs, n, p'', e) :=
              interactive_loop lines' request_count p' in
            ({| sub_request_id := request_id; sub_prompt := prompt;
                sub_result := result |} :: subs, n, p'', e)
        | (p', throw what) => ([], request_count, p', Uncaught what)
        end
  end.

(** [main]: the processor is initialised first, with exit status 1 when
    that fails; otherwise [main] returns, with status 0, only when the
    loop is left at [quit] or [exit].  [None]: [main] has not returned. *)
Definition main (model_path : string) (lines : list (string * Clock))
    : option (Z * list Submission) :=
  let '(p, ok) := initialize new_processor model_path in
  if ok then
    match interactive_loop lines 0 p with
    | (subs, _, _, AtQuit) => Some (0, subs)
    | _ => None
    end
  else Some (1, []).

End Processor.

(** ** Properties of the sampler's result *)

(** [t] is an index of [logits] whose logit no other logit exceeds:
    every logit compares [<=] to it. *)
Definition holds_maximum (logits : list spec_float) (t : Z) : Prop :=
  exists i : nat,
    t = Z.of_nat i /\ (i < length logits)%nat /\
    forall j : nat, (j < length logits)%nat ->
      Float.le (logit_at logits j) (logit_at logits i) = true.

(** No lower index holds a logit equal to the one at [t]. *)
Definition lowest_of_ties (logits : list spec_float) (t : Z) : Prop :=
  forall j : nat, Z.of_nat j < t ->
    SFeqb (logit_at logits j) (logit_at logits (Z.to_nat t)) = false.

Definition greedy_choice (logits : list spec_float) (t : Z) : Prop :=
  holds_maximum logits t /\ lowest_of_ties logits t.

Definition no_nan (logits : list spec_float) : Prop :=
  Forall (fun x => Float.is_nan x = false) logits.

(** The loop invariant of [sample_loop] after the indices below [k]. *)
Definition best_so_far (logits : list spec_float) (k : nat)
    (best : Z * spec_float) : Prop :=
  exists i : nat,
    fst best = Z.of_nat i /\ (i < k)%nat /\
    snd best = logit_at logits i /\
    (forall j : nat, (j < k)%nat ->
       Float.le (logit_at logits j) (snd best) = true) /\
    (forall j : nat, (j < i)%nat ->
       SFltb (logit_at logits j) (snd best) = true).

(** ** Outcomes of a request *)

Section Outcomes.

Context `{L : Llama}.

(** What the [try] block of [processRequest] produced: the prompt and
    completion tokens when generation returned, [None] when the model is
    not loaded or an exception was thrown. *)
Definition request_outcome (p : GGUFProcessor) (prompt : string)
    : option (list Z * list Z) :=
  match model_ p, ctx_ p with
  | Some model, Some ctx =>
      match run_inference model (config_ p) prompt (start_world ctx) with
      | (_, ret r) => Some r
      | (_, throw _) => None
      end
  | _, _ => None
  end.

(** The counters can take [n] more tokens and one more request without
    leaving the range of [long long]. *)
Definition counters_fit (p : GGUFProcessor) (n : nat) : Prop :=
  0 <= total_requests_processed_ p < Int.LLONG_MAX /\
  0 <= total_tokens_processed_ p /\
  total_tokens_processed_ p + Z.of_nat n <= Int.LLONG_MAX.

(** The request was counted: one more request, [n] more tokens. *)
Definition counted (p p' : GGUFProcessor) (n : nat) : Prop :=
  total_requests_processed_ p' = total_requests_processed_ p + 1 /\
  total_tokens_processed_ p' = total_tokens_processed_ p + Z.of_nat n.

Definition counters_unchanged (p p' : GGUFProcessor) : Prop :=
  total_requests_processed_ p' = total_requests_processed_ p /\
  total_tokens_processed_ p' = total_tokens_processed_ p.

End Outcomes.

(** ** Shapes of a response envelope *)

Definition has_bool (r : json) (k : string) : Prop :=
  exists b, r !! k = Some (JBool b).
Definition has_int (r : json) (k : string) : Prop :=
  exists z, r !! k = Some (JInt z).
Definition has_string (r : json) (k : string) : Prop :=
  exists s, r !! k = Some (JString s).

(** The envelope with all five members: [success], [request_id], one of
    [response] and [error], [processing_time_ms], [timestamp]. *)
Definition full_envelope (r : json) : Prop :=
  has_bool r "success" /\
  has_string r "request_id" /\
  ((has_string r "response" /\ r !! "error" = None) \/
   (has_string r "error" /\ r !! "response" = None)) /\
  has_int r "processing_time_ms" /\
  has_int r "timestamp".

(** What [createSuccessResponse] builds. *)
Definition success_envelope (r : json) : Prop :=
  r !! "success" = Some (JBool true) /\
  has_string r "request_id" /\
  has_string r "response" /\ r !! "error" = None /\
  has_int r "processing_time_ms" /\
  has_string r "model" /\
  has_int r "timestamp".

(** What [createErrorResponse] builds: no [processing_time_ms]. *)
Definition error_envelope (r : json) : Prop :=
  r !! "success" = Some (JBool false) /\
  has_string r "request_id" /\
  has_string r "error" /\ r !! "response" = None /\
  r !! "processing_time_ms" = None /\
  has_int r "timestamp".

(** The text [partial] reaches the caller in a response marked
    incomplete. *)
Definition partial_output_returned (r : json) (partial : string) : Prop :=
  (exists k, r !! k = Some (JString partial)) /\
  r !! "incomplete" = Some (JBool true).

(** ** The lines of an interactive run *)

Definition is_quit (prompt : string) : bool :=
  bool_decide (prompt = "quit" \/ prompt = "exit").

(** The lines entered before the first [quit] or [exit]. *)
Fixpoint before_quit (lines : list (string * Clock)) : list (string * Clock) :=
  match lines with
  | [] => []
  | l :: lines' => if is_quit (fst l) then [] else l :: before_quit lines'
  end.

(** The prompts that are not empty, in the order entered. *)
Definition entered_prompts (lines : list (string * Clock)) : list string :=
  filter (fun prompt => prompt <> "") (map fst (before_quit lines)).

(** [local_<first + 1>], ..., [local_<first + n>]. *)
Definition local_ids (first : Z) (n : nat) : list string :=
  map (fun k => local_id (first + Z.of_nat k)) (seq 1 n).

(** ** A scripted backend *)

Module Scripted.

(** A backend whose behaviour is fixed in advance: the token that the
    logits favour after each [llama_eval] call, and the call that fails. *)
Record Script : Type := {
  loads : bool;
  vocab : nat;
  eos : Z;
  samples : list Z;
  failing_eval : option nat
}.

Definition one_hot (n : nat) (token : Z) : list spec_float :=
  map (fun i => if Z.of_nat i =? token then Float.one else Float.zero)
      (seq 0 n).

Definition bytes_of (text : string) : list Z :=
  map (fun a => Z.of_N (N_of_ascii a)) (list_ascii_of_string text).

(** The context is the number of [llama_eval] calls made on it; the
    tokenizer yields a BOS token followed by the bytes of the text. *)
Definition backend (s : Script) : Llama := {|
  llama_model := unit;
  llama_context := nat;
  llama_load_model_from_file _ _ _ _ := if loads s then Some tt else None;
  llama_new_context_with_model _ _ _ _ := Some 0%nat;
  llama_tokenize _ text n_max :=
    let toks := 1 :: bytes_of text in
    (Z.of_nat (length toks),
     toks ++ repeat 0 (Z.to_nat n_max - length toks));
  llama_eval ctx _ _ _ _ :=
    (S ctx, if bool_decide (failing_eval s = Some ctx) then 1 else 0);
  llama_get_logits ctx :=
    one_hot (vocab s) (nth (ctx - 1) (samples s) (eos s));
  llama_n_vocab _ := Z.of_nat (vocab s);
  llama_token_eos _ := eos s;
  llama_token_to_piece _ token _ :=
    (1, String (ascii_of_N (Z.to_N token)) "");
  length_error_what := "vector::_M_default_append"
|}.

(** The texts of the library exceptions of the scripted runs. *)
Definition type_error_text : string :=
  "[json.exception.type_error.316] invalid UTF-8 byte".

Definition type_error_text_utf8 : Utf8.valid type_error_text = true :=
  @eq_refl bool true.

Definition length_error_text_utf8 (s : Script)
    : Utf8.valid (@length_error_what (backend s)) = true :=
  @eq_refl bool true.

#[global] Instance library (s : Script) : @Library (backend s) := {|
  type_error_what _ := type_error_text;
  stats_type_error_what _ := type_error_text;
  type_error_what_utf8 _ := type_error_text_utf8;
  length_error_what_utf8 := length_error_text_utf8 s
|}.

(** The end-of-sequence token is the third one sampled. *)
Definition eos_third : Script :=
  {| loads := true; vocab := 128; eos := 2;
     samples := [72; 105; 2; 33; 33; 33]; failing_eval := None |}.

(** The evaluation of the second generated token fails. *)
Definition fails_second : Script :=
  {| loads := true; vocab := 128; eos := 2;
     samples := [72; 105; 33; 33; 33; 33]; failing_eval := Some 2%nat |}.

(** The model file cannot be loaded. *)
Definition no_model : Script :=
  {| loads := false; vocab := 128; eos := 2;
     samples := []; failing_eval := None |}.

Definition config5 : Config :=
  {| n_threads := 4; n_ctx := 4096; n_batch := 512; n_gpu_layers := 35;
     n_predict := 5; use_mmap := true; use_mlock := false |}.

(** A loaded processor of the scripted backend with [n_predict = 5]. *)
Definition loaded (s : Script) : @GGUFProcessor (backend s) :=
  {| model_ := Some (tt : @llama_model (backend s));
     ctx_ := Some (0%nat : @llama_context (backend s));
     model_path_ := "model.gguf"; model_hash_ := "";
     total_tokens_processed_ := 0; total_requests_processed_ := 0;
     average_processing_time_ := Float.zero; config_ := config5 |}.

Definition clock : Clock :=
  {| elapsed_ms := 12; epoch_now := 1700000000; epoch_caught := 1700000001 |}.

(** The lines of an interactive session. *)
Definition demo_lines : list (string * Clock) :=
  [("Hello", clock); ("", clock); ("Hi", clock); ("quit", clock);
   ("late", clock)].

(** A request id that is not well-formed UTF-8: the lone byte 0xC8. *)
Definition bad_id : string := String (ascii_of_nat 200) "".

(** The first token sampled is 200, whose piece is the lone byte 0xC8;
    the end-of-sequence token follows. *)
Definition bad_text : Script :=
  {| loads := true; vocab := 256; eos := 2;
     samples := [200; 2]; failing_eval := None |}.

End Scripted.

(** The invariant of the loop that needs no assumption on the logits:
    the best logit is the one at the best index, and none of the logits
    seen so far compares greater. *)
Definition unbeaten_so_far (logits : list spec_float) (k : nat)
    (best : Z * spec_float) : Prop :=
  snd best = logit_at logits (Z.to_nat (fst best)) /\
  forall j : nat, (j < k)%nat ->
    Float.gt (logit_at logits j) (snd best) = false.

(** ** The rest of the processor: unloading and statistics *)

(** [config_.temperature = 0.8f] and [config_.top_p = 0.9f], which no
    code assigns, converted to [double] as the JSON library stores them. *)
Definition config_temperature : spec_float :=
  S754_finite false 7205759511166976 (-53).
Definition config_top_p : spec_float :=
  S754_finite false 8106479114518528 (-53).

Section Lifecycle.

Context `{L : Llama} {J : Library}.

(** [unloadModel]: [llama_free] and [llama_free_model] release the two
    objects, the pointers are reset. *)
Definition unloadModel (p : GGUFProcessor) : GGUFProcessor :=
  let p := match ctx_ p with
           | Some _ => set_pointers p (model_ p) None
           | None => p
           end in
  match model_ p with
  | Some _ => set_pointers p None (ctx_ p)
  | None => p
  end.

Definition getStats (p : GGUFProcessor) : gmap string stat :=
  <["config" := Object
      (<["top_p" := SDouble config_top_p]>
      (<["temperature" := SDouble config_temperature]>
      (<["n_ctx" := SInt (n_ctx (config_ p))]>
      (<["n_threads" := SInt (n_threads (config_ p))]> ∅))))]>
  (<["avg_processing_time_ms" :=
       Leaf (SDouble (average_processing_time_ p))]>
  (<["total_tokens" := Leaf (SInt (total_tokens_processed_ p))]>
  (<["total_requests" := Leaf (SInt (total_requests_processed_ p))]>
  (<["model_hash" := Leaf (SString (model_hash_ p))]>
  (<["model_path" := Leaf (SString (model_path_ p))]>
  (<["model_loaded" := Leaf (SBool (isModelLoaded p))]> ∅)))))).

(** The literal returned by [get_processor_stats] while
    [global_processor] is null, as the object it spells. *)
Definition stats_not_initialized : gmap string stat :=
  <["error" := Leaf (SString "Processor not initialized")]> ∅.

(** [getStats().dump()], with no handler around it. *)
Definition get_processor_stats (global_processor : option GGUFProcessor)
    : exn (gmap string stat) :=
  match global_processor with
  | None => ret stats_not_initialized
  | Some p =>
      if stats_utf8 (getStats p) then ret (getStats p)
      else throw (stats_type_error_what (getStats p))
  end.

(** [shutdown_processor]: the processor is deleted (its destructor
    unloads the model) and the pointer reset. *)
Definition shutdown_processor (global_processor : option GGUFProcessor)
    : option GGUFProcessor :=
  match global_processor with
  | Some _ => None
  | None => None
  end.

(** The responses marked as successes among the requests of a run. *)
Definition succeeded (r : json) : bool :=
  match r !! "success" with
  | Some (JBool true) => true
  | _ => false
  end.

Definition successes (subs : list Submission) : nat :=
  length (filter (fun s => succeeded (sub_result s) = true) subs).

(** The texts that the [catch] handler of [processRequest] can report
    for the exceptions of [tokenize] and [generate]. *)
Definition exception_text (what : string) : Prop :=
  what = length_error_what \/
  what = "Failed to evaluate prompt" \/
  what = "Failed to evaluate token".

(** A response of a processor that holds a model: a success, the report
    of an exception of [tokenize] or [generate], or the report of the
    [type_error] of a success envelope whose text is not well-formed
    UTF-8, stamped by the handler. *)
Definition served (request_id : string) (clk : Clock) (r : json) : Prop :=
  (exists text,
     r = success_object text request_id (elapsed_ms clk) (epoch_now clk)) \/
  (exists what, exception_text what /\
                r = error_object what request_id (epoch_now clk)) \/
  (exists text,
     Utf8.valid text = false /\
     r = error_object
           (type_error_what
              (success_object text request_id (elapsed_ms clk) (epoch_now clk)))
           request_id (epoch_caught clk)).

(** The two kinds of response by what happened to the statistics: the
    response to a request whose generation returned, which was counted
    (the success envelope, or the handler's report of the [type_error]
    of that envelope), and the response to a request that was refused
    or whose generation threw, which was not. *)
Definition answered_generation (s : Submission) : Prop :=
  (exists text t now,
     sub_result s = success_object text (sub_request_id s) t now) \/
  (exists text t now now',
     Utf8.valid text = false /\
     sub_result s
     = error_object
         (type_error_what (success_object text (sub_request_id s) t now))
         (sub_request_id s) now').

Definition answered_failure (s : Submission) : Prop :=
  exists what now,
    (what = "Model not loaded" \/ exception_text what) /\
    sub_result s = error_object what (sub_request_id s) now.

Definition count_true (flags : list bool) : nat :=
  length (filter (fun b => b = true) flags).

(** The [llama_eval] calls of the loop for the tokens [new], produced
    after [produced], in the order of the calls. *)
Fixpoint token_evals (prompt_tokens produced new : list Z)
    : list (list Z * Z) :=
  match new with
  | [] => []
  | token :: new' =>
      ([token], n_past_of prompt_tokens (produced ++ [token]))
      :: token_evals prompt_tokens (produced ++ [token]) new'
  end.

(** The iterations of the loop of [generate] that produce a token and
    evaluate it: from [remaining] iterations left with [produced] on
    the context [w] to a later state of the same run. *)
Inductive loop_steps (model : llama_model) (n_thr : Z)
    (prompt_tokens : list Z)
    : nat -> list Z -> World -> nat -> list Z -> World -> Prop :=
| steps_none remaining produced w :
    loop_steps model n_thr prompt_tokens remaining produced w
               remaining produced w
| steps_next remaining produced w token w' remaining' produced' w'' :
    sample_token model w = (w, ret token) ->
    token <> llama_token_eos model ->
    eval_call [token] 1 (n_past_of prompt_tokens (produced ++ [token]))
              n_thr w = (w', ret 0) ->
    loop_steps model n_thr prompt_tokens remaining (produced ++ [token]) w'
               remaining' produced' w'' ->
    loop_steps model n_thr prompt_tokens (S remaining) produced w
               remaining' produced' w''.

End Lifecycle.


Definition fails_prompt : Scripted.Script :=
  {| Scripted.loads := true; Scripted.vocab := 128; Scripted.eos := 2;
     Scripted.samples := [72; 105]; Scripted.failing_eval := Some 0%nat |}.

(** * Theorems *)

(** ** The order of floating-point values *)

Lemma SFltb_key (a b : spec_float) :
  Float.is_nan a = false -> Float.is_nan b = false ->
  (SFltb a b = true <-> Float.key_lt (Float.key a) (Float.key b)).
Proof.
  intros Ha Hb. unfold SFltb, SFcompare, Float.key_lt, Float.key.
  destruct a as [sa|sa| |sa ma ea], b as [sb|sb| |sb mb eb];
    try discriminate; try destruct sa; try destruct sb; simpl;
    try (split; [discriminate | lia]); try (split; [reflexivity | lia]);
    try (split; [lia | reflexivity]).
  - destruct (Z.compare_spec ea eb); unfold Pos.compare_cont;
      fold (Pos.compare_cont Eq ma mb); fold (Pos.compare ma mb);
      try destruct (Pos.compare_spec ma mb); simpl;
      split; intros; try discriminate; try reflexivity; lia.
  - destruct (Z.compare_spec ea eb);
      fold (Pos.compare ma mb);
      try destruct (Pos.compare_spec ma mb); simpl;
      split; intros; try discriminate; try reflexivity; lia.
Qed.

Lemma SFleb_key (a b : spec_float) :
  Float.is_nan a = false -> Float.is_nan b = false ->
  (SFleb a b = true <-> ~ Float.key_lt (Float.key b) (Float.key a)).
Proof.
  intros Ha Hb. unfold SFleb, SFcompare, Float.key_lt, Float.key.
  destruct a as [sa|sa| |sa ma ea], b as [sb|sb| |sb mb eb];
    try discriminate; try destruct sa; try destruct sb; simpl;
    try (split; [discriminate | lia]); try (split; [reflexivity | lia]);
    try (split; [lia | reflexivity]).
  - destruct (Z.compare_spec ea eb);
      fold (Pos.compare ma mb);
      try destruct (Pos.compare_spec ma mb); simpl;
      split; intros; try discriminate; try reflexivity; lia.
  - destruct (Z.compare_spec ea eb);
      fold (Pos.compare ma mb);
      try destruct (Pos.compare_spec ma mb); simpl;
      split; intros; try discriminate; try reflexivity; lia.
Qed.

Lemma SFeqb_key (a b : spec_float) :
  Float.is_nan a = false -> Float.is_nan b = false ->
  (SFeqb a b = true <-> Float.key a = Float.key b).
Proof.
  intros Ha Hb. unfold SFeqb, SFcompare, Float.key.
  destruct a as [sa|sa| |sa ma ea], b as [sb|sb| |sb mb eb];
    try discriminate; try destruct sa; try destruct sb; simpl;
    try (split; [discriminate | intros [=]; lia]);
    try (split; [reflexivity | reflexivity]).
  - destruct (Z.compare_spec ea eb);
      fold (Pos.compare ma mb);
      try destruct (Pos.compare_spec ma mb); simpl;
      (split; [intros; try discriminate; subst; reflexivity
              | intros [=]; try reflexivity; lia]).
  - destruct (Z.compare_spec ea eb);
      fold (Pos.compare ma mb);
      try destruct (Pos.compare_spec ma mb); simpl;
      (split; [intros; try discriminate; subst; reflexivity
              | intros [=]; try reflexivity; lia]).
Qed.

(** A NaN compares false with everything, itself included. *)
Lemma le_nan_r (a : spec_float) : Float.le a S754_nan = false.
Proof. destruct a; reflexivity. Qed.

Lemma gt_nan_r (a : spec_float) : Float.gt a S754_nan = false.
Proof. destruct a; reflexivity. Qed.

Lemma le_refl (a : spec_float) : Float.is_nan a = false -> Float.le a a = true.
Proof.
  intros Ha. apply SFleb_key; [done..|].
  unfold Float.key_lt. destruct (Float.key a) as [[? ?] ?]. lia.
Qed.

Lemma le_lt_trans (a b c : spec_float) :
  Float.is_nan a = false -> Float.is_nan b = false -> Float.is_nan c = false ->
  Float.le a b = true -> SFltb b c = true -> SFltb a c = true.
Proof.
  intros Ha Hb Hc Hab Hbc.
  apply SFleb_key in Hab; [|done..]. apply SFltb_key in Hbc; [|done..].
  apply SFltb_key; [done..|]. revert Hab Hbc. unfold Float.key_lt.
  destruct (Float.key a) as [[? ?] ?], (Float.key b) as [[? ?] ?],
    (Float.key c) as [[? ?] ?]. lia.
Qed.

Lemma lt_le (a b : spec_float) :
  Float.is_nan a = false -> Float.is_nan b = false ->
  SFltb a b = true -> Float.le a b = true.
Proof.
  intros Ha Hb Hab. apply SFltb_key in Hab; [|done..].
  apply SFleb_key; [done..|]. revert Hab. unfold Float.key_lt.
  destruct (Float.key a) as [[? ?] ?], (Float.key b) as [[? ?] ?]. lia.
Qed.

Lemma not_gt_le (a b : spec_float) :
  Float.is_nan a = false -> Float.is_nan b = false ->
  Float.gt a b = false -> Float.le a b = true.
Proof.
  intros Ha Hb Hab. unfold Float.gt in Hab.
  apply SFleb_key; [done..|]. intros Hlt.
  apply SFltb_key in Hlt; [|done..]. congruence.
Qed.

Lemma lt_not_eq (a b : spec_float) :
  Float.is_nan a = false -> Float.is_nan b = false ->
  SFltb a b = true -> SFeqb a b = false.
Proof.
  intros Ha Hb Hab. apply SFltb_key in Hab; [|done..].
  destruct (SFeqb a b) eqn:E; [|done].
  apply SFeqb_key in E; [|done..]. rewrite E in Hab.
  revert Hab. unfold Float.key_lt.
  destruct (Float.key b) as [[? ?] ?]. lia.
Qed.

(** ** Greedy sampling *)

Example sample_token_tie :
  sample_token_of [Float.one; Float.zero; Float.one] 3 = 0.
Proof. reflexivity. Qed.

Example sample_token_later_maximum :
  sample_token_of [Float.zero; S754_zero true; Float.one; Float.one] 4 = 2.
Proof. reflexivity. Qed.

Example sample_token_single : sample_token_of [S754_infinity true] 1 = 0.
Proof. reflexivity. Qed.

Lemma logit_at_no_nan (logits : list spec_float) (i : nat) :
  no_nan logits -> (i < length logits)%nat ->
  Float.is_nan (logit_at logits i) = false.
Proof.
  intros Hn Hi. unfold logit_at.
  exact (proj1 (Forall_nth _ S754_nan logits) Hn i Hi).
Qed.

Lemma sample_step_invariant (logits : list spec_float) (k : nat)
    (best : Z * spec_float) :
  no_nan logits -> (0 < k < length logits)%nat ->
  best_so_far logits k best ->
  best_so_far logits (S k) (sample_step logits best k).
Proof.
  intros Hn Hk (i & Hi & Hik & Hbl & Hle & Hlt).
  assert (Hnk := logit_at_no_nan logits k Hn ltac:(lia)).
  assert (Hnb : Float.is_nan (snd best) = false)
    by (rewrite Hbl; apply logit_at_no_nan; [done | lia]).
  assert (Hnj : forall j, (j < S k)%nat -> Float.is_nan (logit_at logits j) = false)
    by (intros; apply logit_at_no_nan; [done | lia]).
  unfold sample_step. destruct (Float.gt _ _) eqn:Hgt.
  - exists k. simpl. repeat split; [lia | |].
    + intros j Hj. destruct (decide (j = k)) as [->|Hne].
      * by apply le_refl.
      * apply lt_le; [by apply Hnj | done |].
        apply le_lt_trans with (snd best); [by apply Hnj | done..| |done].
        apply Hle. lia.
    + intros j Hj.
      apply le_lt_trans with (snd best);
        [apply Hnj; lia | done | done | apply Hle; lia | done].
  - exists i. repeat split; [done | lia | done | | done].
    intros j Hj. destruct (decide (j = k)) as [->|Hne].
    + by apply not_gt_le.
    + apply Hle. lia.
Qed.

Lemma sample_loop_invariant (logits : list spec_float) (m : nat) :
  no_nan logits -> (m < length logits)%nat ->
  best_so_far logits (S m)
    (fold_left (sample_step logits) (seq 1 m) (0, logit_at logits 0%nat)).
Proof.
  intros Hn. induction m as [|m IH]; intros Hm.
  - exists 0%nat. simpl. repeat split; [lia | | intros; lia].
    intros j Hj. replace j with 0%nat by lia.
    apply le_refl, logit_at_no_nan; [done | lia].
  - rewrite seq_S, fold_left_app. simpl.
    apply sample_step_invariant; [done | lia | apply IH; lia].
Qed.

(** C4 (as amended): for every logits vector of size [n_vocab >= 1]
    that holds no NaN, [sample_token] returns an index holding the
    maximum logit, and no lower index holds an equal logit. *)
Theorem sample_token_greedy (logits : list spec_float) (n_vocab : Z) :
  1 <= n_vocab ->
  Z.of_nat (length logits) = n_vocab ->
  no_nan logits ->
  greedy_choice logits (sample_token_of logits n_vocab).
Proof.
  intros Hv Hlen Hn.
  destruct (sample_loop_invariant logits (Z.to_nat n_vocab - 1) Hn ltac:(lia))
    as (i & Hi & Hik & Hbl & Hle & Hlt).
  unfold sample_token_of, sample_loop. rewrite Hi. split.
  - exists i. repeat split; [lia |].
    intros j Hj. rewrite <- Hbl. apply Hle. lia.
  - intros j Hj. rewrite Nat2Z.id.
    assert (j < i)%nat as Hji by lia.
    apply lt_not_eq;
      [apply logit_at_no_nan; [done | lia]
      | apply logit_at_no_nan; [done | lia]
      | rewrite <- Hbl; by apply Hlt].
Qed.

Lemma sample_token_greedy_witness :
  greedy_choice [Float.zero; Float.one; Float.zero; Float.one]
                (sample_token_of [Float.zero; Float.one; Float.zero; Float.one] 4).
Proof.
  apply sample_token_greedy.
  - lia.
  - reflexivity.
  - repeat constructor.
Defined.

(** C4 (as stated) fails when a logit is a NaN: on [NaN; 1.0] the loop
    never replaces the first entry, and index 0 does not hold a
    maximum since [1.0 <= NaN] is false. *)
Lemma sample_token_nan_counterexample :
  1 <= 2 /\ Z.of_nat (length [S754_nan; Float.one]) = 2 /\
  sample_token_of [S754_nan; Float.one] 2 = 0 /\
  ~ greedy_choice [S754_nan; Float.one]
                  (sample_token_of [S754_nan; Float.one] 2).
Proof.
  repeat split; [lia|].
  intros [(i & Hi & _ & Hmax) _].
  change (sample_token_of [S754_nan; Float.one] 2) with 0 in Hi.
  assert (i = 0%nat) as -> by lia.
  specialize (Hmax 1%nat ltac:(simpl; lia)). discriminate Hmax.
Qed.

(** ** Machine integers *)

Lemma to_int_small (z : Z) :
  - 2 ^ 31 <= z <= Int.INT_MAX -> Int.to_int z = z.
Proof.
  unfold Int.to_int, Int.wrap, Int.INT_MAX.
  change (2 ^ (32 - 1)) with 2147483648. change (2 ^ 32) with 4294967296.
  change (2 ^ 31) with 2147483648.
  intros Hz. rewrite Z.mod_small by lia. lia.
Qed.

Lemma to_llong_small (z : Z) :
  - 2 ^ 63 <= z <= Int.LLONG_MAX -> Int.to_llong z = z.
Proof.
  unfold Int.to_llong, Int.wrap, Int.LLONG_MAX.
  change (2 ^ (64 - 1)) with 9223372036854775808.
  change (2 ^ 64) with 18446744073709551616.
  change (2 ^ 63) with 9223372036854775808.
  intros Hz. rewrite Z.mod_small by lia. lia.
Qed.

(** ** Generation *)

Section Generation.

Context `{L : Llama} {J : Library}.

Implicit Types (p : GGUFProcessor) (prompt request_id : string) (clk : Clock).
Implicit Types (model : llama_model) (w : World) (c : Config).

Lemma eval_call_log tokens n n_past n_thr w :
  w_evals (fst (eval_call tokens n n_past n_thr w))
  = (tokens, n_past) :: w_evals w.
Proof. unfold eval_call. by destruct (llama_eval _ _ _ _ _). Qed.

Lemma eval_call_ret tokens n n_past n_thr w :
  exists status, snd (eval_call tokens n n_past n_thr w) = ret status.
Proof. unfold eval_call. destruct (llama_eval _ _ _ _ _). simpl. eauto. Qed.

Lemma tokenize_world model text w : fst (tokenize model text w) = w.
Proof.
  unfold tokenize. destruct (llama_tokenize _ _ _) as [n buf].
  by destruct (n <? 0).
Qed.

(** The equations of [generate] and of its loop. *)
Lemma generate_prompt_ok model c prompt_tokens w w' :
  eval_call prompt_tokens (Int.to_int (Z.of_nat (length prompt_tokens))) 0
            (n_threads c) w = (w', ret 0) ->
  generate model c prompt_tokens w
  = generate_loop model (n_threads c) prompt_tokens
                  (Z.to_nat (n_predict c)) [] w'.
Proof. intros He. unfold generate, bind. by rewrite He. Qed.

Lemma generate_prompt_failure model c prompt_tokens w w' status :
  eval_call prompt_tokens (Int.to_int (Z.of_nat (length prompt_tokens))) 0
            (n_threads c) w = (w', ret status) ->
  status <> 0 ->
  generate model c prompt_tokens w = (w', throw "Failed to evaluate prompt").
Proof.
  intros He Hst. unfold generate, bind. rewrite He.
  by rewrite (proj2 (Z.eqb_neq _ _) Hst).
Qed.

Lemma generate_loop_eos model n_thr prompt_tokens remaining produced w :
  sample_token model w = (w, ret (llama_token_eos model)) ->
  generate_loop model n_thr prompt_tokens (S remaining) produced w
  = (w, ret produced).
Proof.
  intros Hs. cbn [generate_loop]. unfold bind at 1. rewrite Hs.
  by rewrite Z.eqb_refl.
Qed.

Lemma generate_loop_step model n_thr prompt_tokens remaining produced
    w token w' :
  sample_token model w = (w, ret token) ->
  token <> llama_token_eos model ->
  eval_call [token] 1 (n_past_of prompt_tokens (produced ++ [token])) n_thr w
  = (w', ret 0) ->
  generate_loop model n_thr prompt_tokens (S remaining) produced w
  = generate_loop model n_thr prompt_tokens remaining (produced ++ [token]) w'.
Proof.
  intros Hs Hne He. cbn [generate_loop]. unfold bind at 1. rewrite Hs.
  rewrite (proj2 (Z.eqb_neq _ _) Hne). unfold bind at 1. by rewrite He.
Qed.

(** A failing evaluation inside the loop ends it with an exception,
    whatever tokens were produced before: they are not part of the
    result. *)
Lemma generate_loop_eval_failure model n_thr prompt_tokens remaining
    produced w token w' status :
  sample_token model w = (w, ret token) ->
  token <> llama_token_eos model ->
  eval_call [token] 1 (n_past_of prompt_tokens (produced ++ [token])) n_thr w
  = (w', ret status) ->
  status <> 0 ->
  generate_loop model n_thr prompt_tokens (S remaining) produced w
  = (w', throw "Failed to evaluate token").
Proof.
  intros Hs Hne He Hst. cbn [generate_loop]. unfold bind at 1. rewrite Hs.
  rewrite (proj2 (Z.eqb_neq _ _) Hne). unfold bind. rewrite He.
  by rewrite (proj2 (Z.eqb_neq _ _) Hst).
Qed.

(** Each iteration of the loop makes at most one [llama_eval] call. *)
Lemma generate_loop_evals model n_thr prompt_tokens remaining :
  forall produced w,
    (length (w_evals (fst (generate_loop model n_thr prompt_tokens
                                         remaining produced w)))
     <= length (w_evals w) + remaining)%nat.
Proof.
  induction remaining as [|k IH]; intros produced w; [simpl; lia|].
  cbn [generate_loop]. unfold bind at 1, sample_token at 1.
  destruct (_ =? _); [simpl; lia|].
  unfold bind.
  pose proof (eval_call_log [sample_token_of (llama_get_logits (w_ctx w))
                                             (llama_n_vocab model)] 1
    (n_past_of prompt_tokens
       (produced ++ [sample_token_of (llama_get_logits (w_ctx w))
                                     (llama_n_vocab model)])) n_thr w) as Hlog.
  destruct (eval_call _ _ _ _ w) as [w' [status|what]]; simpl in Hlog.
  - destruct (negb _).
    + simpl. rewrite Hlog. simpl. lia.
    + specialize (IH (produced ++ [sample_token_of
                                     (llama_get_logits (w_ctx w))
                                     (llama_n_vocab model)]) w').
      rewrite Hlog in IH. simpl in IH. lia.
  - simpl. rewrite Hlog. simpl. lia.
Qed.

(** [generate] adds the evaluation of the prompt to those of its loop;
    a count that is not positive gives no iteration. *)
Lemma generate_evals model c prompt_tokens w :
  (length (w_evals (fst (generate model c prompt_tokens w)))
   <= length (w_evals w) + Z.to_nat (n_predict c) + 1)%nat.
Proof.
  unfold generate, bind.
  pose proof (eval_call_log prompt_tokens
    (Int.to_int (Z.of_nat (length prompt_tokens))) 0 (n_threads c) w) as Hlog.
  destruct (eval_call _ _ _ _ w) as [w' [status|what]]; simpl in Hlog.
  - destruct (negb _).
    + simpl. rewrite Hlog. simpl length. lia.
    + pose proof (generate_loop_evals model (n_threads c) prompt_tokens
                    (Z.to_nat (n_predict c)) [] w') as Hloop.
      rewrite Hlog in Hloop. simpl length in Hloop. lia.
  - simpl. rewrite Hlog. simpl length. lia.
Qed.

(** C5: for every prompt token list and every [n_predict >= 0],
    [generate] makes at most [n_predict + 1] calls of [llama_eval]
    before it returns or throws: one for the prompt and at most one for
    each produced token. *)
Theorem generate_eval_bound model c prompt_tokens w :
  0 <= n_predict c ->
  Z.of_nat (length (w_evals (fst (generate model c prompt_tokens w))))
  <= Z.of_nat (length (w_evals w)) + (n_predict c + 1).
Proof.
  intros Hn.
  pose proof (generate_evals model c prompt_tokens w) as Hb.
  apply Nat2Z.inj_le in Hb.
  rewrite !Nat2Z.inj_add, Z2Nat.id in Hb by done.
  change (Z.of_nat 1) with 1 in Hb. lia.
Qed.

(** The same bound for a whole request: tokenizing evaluates nothing. *)
Lemma request_eval_bound p prompt :
  0 <= n_predict (config_ p) ->
  Z.of_nat (length (evals_of_request p prompt)) <= n_predict (config_ p) + 1.
Proof.
  intros Hn. unfold evals_of_request.
  destruct (model_ p) as [model|], (ctx_ p) as [ctx|]; try (simpl; lia).
  unfold run_inference. unfold bind at 1.
  pose proof (tokenize_world model prompt (start_world ctx)) as Hw.
  destruct (tokenize model prompt (start_world ctx)) as [w [toks|what]];
    simpl in Hw; subst w; [|simpl; lia].
  unfold bind.
  pose proof (generate_evals model (config_ p) toks (start_world ctx)) as Hb.
  destruct (generate _ _ _ _) as [w' [resp|what]]; simpl in *; lia.
Qed.


Lemma generate_loop_throw model n_thr prompt_tokens remaining :
  forall produced w w' what,
    generate_loop model n_thr prompt_tokens remaining produced w
    = (w', throw what) ->
    what = "Failed to evaluate token".
Proof.
  induction remaining as [|k IH]; intros produced w w' what H; [done|].
  cbn [generate_loop] in H. unfold bind at 1, sample_token at 1 in H.
  destruct (_ =? llama_token_eos model); [done|].
  unfold bind in H.
  pose proof (eval_call_ret
                [sample_token_of (llama_get_logits (w_ctx w))
                                 (llama_n_vocab model)] 1
                (n_past_of prompt_tokens
                   (produced ++ [sample_token_of (llama_get_logits (w_ctx w))
                                                 (llama_n_vocab model)]))
                n_thr w) as [status Hst].
  destruct (eval_call _ _ _ _ w) as [w1 r]. simpl in Hst. subst r.
  destruct (negb (status =? 0)).
  - by inversion H.
  - by eapply IH.
Qed.

(** The only exceptions of the [try] block: the length error of
    [tokenize] and the two runtime errors of [generate]. *)
Lemma run_inference_throw model c prompt w w' what :
  run_inference model c prompt w = (w', throw what) -> exception_text what.
Proof.
  unfold run_inference, exception_text. unfold bind at 1.
  unfold tokenize. destruct (llama_tokenize _ _ _) as [n buf].
  destruct (n <? 0); [intros [= _ <-]; by left|].
  unfold pure at 1. unfold bind at 1.
  destruct (generate _ _ _ _) as [w1 [resp|what']] eqn:Hg; [done|].
  intros [= _ <-]. right. revert Hg. unfold generate, bind.
  pose proof (eval_call_ret (resize (Z.to_nat n) buf)
                (Int.to_int (Z.of_nat (length (resize (Z.to_nat n) buf))))
                0 (n_threads c) w) as [status Hst].
  destruct (eval_call _ _ _ _ w) as [w2 r]. simpl in Hst. subst r.
  destruct (negb (status =? 0)).
  - intros [= _ <-]. by left.
  - intros Hl. right. by eapply generate_loop_throw.
Qed.

(** The run of the loop is the run from any state that it steps to. *)
Lemma loop_steps_run model n_thr prompt_tokens remaining produced w
    remaining' produced' w' :
  loop_steps model n_thr prompt_tokens remaining produced w
             remaining' produced' w' ->
  generate_loop model n_thr prompt_tokens remaining produced w
  = generate_loop model n_thr prompt_tokens remaining' produced' w'.
Proof.
  induction 1 as [|k acc w0 token w1 k' acc' w2 Hs Hne He _ IH]; [done|].
  by rewrite (generate_loop_step _ _ _ _ _ _ _ _ Hs Hne He).
Qed.

End Generation.

(** ** Well-formed UTF-8 and [dump()] *)

Lemma ascii_only_valid (s : string) :
  Utf8.ascii_only s = true -> Utf8.valid s = true.
Proof.
  induction s as [|a s IH]; [done|]. cbn [Utf8.ascii_only Utf8.valid].
  intros [Ha Hs]%andb_true_iff. rewrite Ha. by apply IH.
Qed.

Lemma ascii_only_app (a b : string) :
  Utf8.ascii_only (a +:+ b) = Utf8.ascii_only a && Utf8.ascii_only b.
Proof.
  induction a as [|x a IH]; [done|].
  change (Utf8.ascii_only (String x (a +:+ b))
          = Utf8.ascii_only (String x a) && Utf8.ascii_only b).
  cbn [Utf8.ascii_only]. by rewrite IH, andb_assoc.
Qed.

Lemma ascii_only_pretty_N_go (x : N) :
  forall s, Utf8.ascii_only s = true ->
            Utf8.ascii_only (pretty_N_go x s) = true.
Proof.
  induction (N.lt_wf_0 x) as [x _ IH]. intros s Hs.
  destruct (decide (x = 0%N)) as [->|Hx]; [by rewrite pretty_N_go_0|].
  rewrite pretty_N_go_step by lia. apply IH.
  - apply N.div_lt; lia.
  - cbn [Utf8.ascii_only]. rewrite Hs, andb_true_r.
    unfold pretty_N_char. by repeat case_match.
Qed.

Lemma ascii_only_pretty_Z (z : Z) : Utf8.ascii_only (pretty z) = true.
Proof.
  assert (forall x : N, Utf8.ascii_only (pretty x) = true) as HN.
  { intros x. unfold pretty, pretty_N. case_decide; [done|].
    by apply ascii_only_pretty_N_go. }
  destruct z as [|x|x]; [done|apply HN|].
  change (pretty (Z.neg x)) with ("-" +:+ pretty (N.pos x)).
  rewrite ascii_only_app. by rewrite HN.
Qed.

(** The ids of the interactive loop are plain text. *)
Lemma local_id_utf8 (n : Z) : Utf8.valid (local_id n) = true.
Proof.
  apply ascii_only_valid. unfold local_id.
  rewrite ascii_only_app. by rewrite ascii_only_pretty_Z.
Qed.

Lemma success_object_utf8 (text request_id : string) (t now : Z) :
  json_utf8 (success_object text request_id t now)
  = Utf8.valid request_id && Utf8.valid text.
Proof.
  unfold json_utf8, success_object.
  destruct (Utf8.valid request_id) eqn:Hid, (Utf8.valid text) eqn:Ht; simpl.
  - apply bool_decide_eq_true_2.
    repeat (apply map_Forall_insert_2; [by split|]). apply map_Forall_empty.
  - apply bool_decide_eq_false_2. intros H.
    destruct (H "response" (JString text) ltac:(by simplify_map_eq)) as [_ H'].
    simpl in H'. congruence.
  - apply bool_decide_eq_false_2. intros H.
    destruct (H "request_id" (JString request_id)
                ltac:(by simplify_map_eq)) as [_ H'].
    simpl in H'. congruence.
  - apply bool_decide_eq_false_2. intros H.
    destruct (H "request_id" (JString request_id)
                ltac:(by simplify_map_eq)) as [_ H'].
    simpl in H'. congruence.
Qed.

Lemma error_object_utf8 (error request_id : string) (now : Z) :
  json_utf8 (error_object error request_id now)
  = Utf8.valid error && Utf8.valid request_id.
Proof.
  unfold json_utf8, error_object.
  destruct (Utf8.valid error) eqn:He, (Utf8.valid request_id) eqn:Hid; simpl.
  - apply bool_decide_eq_true_2.
    repeat (apply map_Forall_insert_2; [by split|]). apply map_Forall_empty.
  - apply bool_decide_eq_false_2. intros H.
    destruct (H "request_id" (JString request_id)
                ltac:(by simplify_map_eq)) as [_ H'].
    simpl in H'. congruence.
  - apply bool_decide_eq_false_2. intros H.
    destruct (H "error" (JString error) ltac:(by simplify_map_eq)) as [_ H'].
    simpl in H'. congruence.
  - apply bool_decide_eq_false_2. intros H.
    destruct (H "error" (JString error) ltac:(by simplify_map_eq)) as [_ H'].
    simpl in H'. congruence.
Qed.

(** ** Members of the envelopes *)

Lemma success_response_envelope (text request_id : string) (t now : Z) :
  success_envelope (success_object text request_id t now).
Proof.
  unfold success_envelope, success_object, has_string, has_int.
  repeat split; try (eexists; by simplify_map_eq); by simplify_map_eq.
Qed.

Lemma error_response_envelope (error request_id : string) (now : Z) :
  error_envelope (error_object error request_id now).
Proof.
  unfold error_envelope, error_object, has_string, has_int.
  repeat split; try (eexists; by simplify_map_eq); by simplify_map_eq.
Qed.

Lemma success_response_request_id (text request_id : string) (t now : Z) :
  success_object text request_id t now !! "request_id"
  = Some (JString request_id).
Proof. unfold success_object. by simplify_map_eq. Qed.

Lemma error_response_request_id (error request_id : string) (now : Z) :
  error_object error request_id now !! "request_id"
  = Some (JString request_id).
Proof. unfold error_object. by simplify_map_eq. Qed.

Lemma error_response_error (error request_id : string) (now : Z) :
  error_object error request_id now !! "error" = Some (JString error).
Proof. unfold error_object. by simplify_map_eq. Qed.

(** The members of an error envelope: nothing but the flag, the id, the
    message and the time stamp. *)
Lemma error_response_members (error request_id : string) (now : Z)
    (k : string) (v : jvalue) :
  error_object error request_id now !! k = Some v ->
  v = JBool false \/ v = JString request_id \/ v = JString error \/
  v = JInt now.
Proof.
  unfold error_object. rewrite !lookup_insert, lookup_empty.
  repeat case_decide; naive_solver.
Qed.

(** ** The ways through [processRequest] *)

Section Requests.

Context `{L : Llama} {J : Library}.

Implicit Types (p : GGUFProcessor) (prompt request_id : string) (clk : Clock).
Implicit Types (model : llama_model) (w : World) (c : Config).

Lemma createErrorResponse_ok (error request_id : string) (now : Z) :
  Utf8.valid error = true -> Utf8.valid request_id = true ->
  createErrorResponse error request_id now
  = ret (error_object error request_id now).
Proof.
  intros He Hid. unfold createErrorResponse, dump.
  by rewrite error_object_utf8, He, Hid.
Qed.

Lemma createErrorResponse_bad_id (error request_id : string) (now : Z) :
  Utf8.valid request_id = false ->
  createErrorResponse error request_id now
  = throw (type_error_what (error_object error request_id now)).
Proof.
  intros Hid. unfold createErrorResponse, dump.
  by rewrite error_object_utf8, Hid, andb_false_r.
Qed.

Lemma createSuccessResponse_ok (text request_id : string) (t now : Z) :
  Utf8.valid request_id = true -> Utf8.valid text = true ->
  createSuccessResponse text request_id t now
  = ret (success_object text request_id t now).
Proof.
  intros Hid Ht. unfold createSuccessResponse, dump.
  by rewrite success_object_utf8, Hid, Ht.
Qed.

Lemma createSuccessResponse_bad (text request_id : string) (t now : Z) :
  Utf8.valid request_id && Utf8.valid text = false ->
  createSuccessResponse text request_id t now
  = throw (type_error_what (success_object text request_id t now)).
Proof.
  intros H. unfold createSuccessResponse, dump.
  by rewrite success_object_utf8, H.
Qed.

(** The texts of the exceptions of [tokenize] and [generate] are plain
    text. *)
Lemma exception_text_utf8 (what : string) :
  exception_text what -> Utf8.valid what = true.
Proof.
  intros [->|[->| ->]];
    [apply length_error_what_utf8 | by vm_compute | by vm_compute].
Qed.

Lemma processRequest_not_loaded p prompt request_id clk :
  isModelLoaded p = false ->
  processRequest p prompt request_id clk
  = (p, createErrorResponse "Model not loaded" request_id (epoch_now clk)).
Proof.
  unfold isModelLoaded, processRequest.
  by destruct (model_ p), (ctx_ p).
Qed.

Lemma processRequest_throw p prompt request_id clk model ctx w what :
  model_ p = Some model -> ctx_ p = Some ctx ->
  run_inference model (config_ p) prompt (start_world ctx) = (w, throw what) ->
  processRequest p prompt request_id clk
  = (set_pointers p (Some model) (Some (w_ctx w)),
     createErrorResponse what request_id (epoch_now clk)).
Proof. intros Hm Hc Hr. unfold processRequest. by rewrite Hm, Hc, Hr. Qed.

(** Generation returned: the statistics are updated, then the success
    envelope is dumped; the handler answers when that throws. *)
Lemma processRequest_ret p prompt request_id clk model ctx w toks resp :
  model_ p = Some model -> ctx_ p = Some ctx ->
  run_inference model (config_ p) prompt (start_world ctx)
  = (w, ret (toks, resp)) ->
  processRequest p prompt request_id clk
  = (update_statistics (set_pointers p (Some model) (Some (w_ctx w)))
                       toks resp (elapsed_ms clk),
     match createSuccessResponse (detokenize model resp) request_id
                                 (elapsed_ms clk) (epoch_now clk) with
     | ret r => ret r
     | throw what => createErrorResponse what request_id (epoch_caught clk)
     end).
Proof.
  intros Hm Hc Hr. unfold processRequest. rewrite Hm, Hc, Hr.
  by destruct (createSuccessResponse _ _ _ _).
Qed.

(** What the caller of a returned generation gets. *)
Lemma returned_generation_response (text request_id : string) clk :
  match createSuccessResponse text request_id
                              (elapsed_ms clk) (epoch_now clk) with
  | ret r => ret r
  | throw what => createErrorResponse what request_id (epoch_caught clk)
  end
  = if Utf8.valid request_id
    then if Utf8.valid text
         then ret (success_object text request_id
                                  (elapsed_ms clk) (epoch_now clk))
         else ret (error_object
                     (type_error_what
                        (success_object text request_id
                                        (elapsed_ms clk) (epoch_now clk)))
                     request_id (epoch_caught clk))
    else throw (type_error_what
                  (error_object
                     (type_error_what
                        (success_object text request_id
                                        (elapsed_ms clk) (epoch_now clk)))
                     request_id (epoch_caught clk))).
Proof.
  destruct (Utf8.valid request_id) eqn:Hid, (Utf8.valid text) eqn:Ht.
  - by rewrite createSuccessResponse_ok.
  - rewrite createSuccessResponse_bad by (by rewrite Hid, Ht).
    by rewrite createErrorResponse_ok by (done || apply type_error_what_utf8).
  - rewrite createSuccessResponse_bad by (by rewrite Hid).
    by rewrite createErrorResponse_bad_id.
  - rewrite createSuccessResponse_bad by (by rewrite Hid).
    by rewrite createErrorResponse_bad_id.
Qed.

(** Every response is one of the two objects, with the caller's id, and
    a response is missing only for an id that is not well-formed UTF-8. *)
Lemma processRequest_cases p prompt request_id clk :
  match snd (processRequest p prompt request_id clk) with
  | ret r =>
      Utf8.valid request_id = true /\
      ((exists text t now, r = success_object text request_id t now) \/
       (exists what now, r = error_object what request_id now))
  | throw _ => Utf8.valid request_id = false
  end.
Proof.
  assert (Herr : forall what now,
            Utf8.valid what = true ->
            match createErrorResponse what request_id now with
            | ret r =>
                Utf8.valid request_id = true /\
                ((exists text t now,
                    r = success_object text request_id t now) \/
                 (exists what now, r = error_object what request_id now))
            | throw _ => Utf8.valid request_id = false
            end).
  { intros what now Hw. destruct (Utf8.valid request_id) eqn:Hid.
    - rewrite createErrorResponse_ok by assumption.
      split; [reflexivity|]. right. by eexists _, _.
    - by rewrite createErrorResponse_bad_id. }
  destruct (isModelLoaded p) eqn:Hl.
  - unfold isModelLoaded in Hl.
    destruct (model_ p) as [model|] eqn:Hm; [|done].
    destruct (ctx_ p) as [ctx|] eqn:Hc; [|done].
    destruct (run_inference model (config_ p) prompt (start_world ctx))
      as [w [[toks resp]|what]] eqn:Hr.
    + rewrite (processRequest_ret _ _ _ _ _ _ _ _ _ Hm Hc Hr). cbn [snd].
      rewrite returned_generation_response.
      destruct (Utf8.valid request_id), (Utf8.valid (detokenize model resp));
        [split; [reflexivity|]; left; by eexists _, _, _
        |split; [reflexivity|]; right; by eexists _, _
        |reflexivity|reflexivity].
    + rewrite (processRequest_throw _ _ _ _ _ _ _ _ Hm Hc Hr). cbn [snd].
      apply Herr, exception_text_utf8. by eapply run_inference_throw.
  - rewrite processRequest_not_loaded by done. cbn [snd].
    apply Herr. by vm_compute.
Qed.

Lemma processRequest_answers p prompt request_id clk :
  Utf8.valid request_id = true ->
  exists r, snd (processRequest p prompt request_id clk) = ret r.
Proof.
  intros Hid. pose proof (processRequest_cases p prompt request_id clk) as H.
  destruct (snd (processRequest p prompt request_id clk)) as [r|what];
    [eauto | congruence].
Qed.

(** C9 (as amended): with no model loaded (model or context pointer
    null), [processRequest] leaves the processor, its three statistics
    included, as it was; when the request id is well-formed UTF-8 it
    answers [success = false] with the error ["Model not loaded"] and
    the caller's request id, and for any other id [dump()] throws and no
    response is returned. *)
Theorem model_not_loaded_response p prompt request_id clk :
  isModelLoaded p = false ->
  let '(p', r) := processRequest p prompt request_id clk in
  total_requests_processed_ p' = total_requests_processed_ p /\
  total_tokens_processed_ p' = total_tokens_processed_ p /\
  average_processing_time_ p' = average_processing_time_ p /\
  p' = p /\
  if Utf8.valid request_id
  then exists e,
      r = ret e /\
      e !! "success" = Some (JBool false) /\
      e !! "error" = Some (JString "Model not loaded") /\
      e !! "request_id" = Some (JString request_id)
  else exists what, r = throw what.
Proof.
  intros Hl. rewrite processRequest_not_loaded by done.
  repeat split. destruct (Utf8.valid request_id) eqn:Hid.
  - rewrite createErrorResponse_ok by (assumption || by vm_compute).
    eexists. split; [done|].
    unfold error_object. repeat split; by simplify_map_eq.
  - rewrite createErrorResponse_bad_id by done. eauto.
Qed.

(** C2 (as amended): once the processor exists, [process_request]
    returns one response for every prompt and every request id that is
    well-formed UTF-8, and its [request_id] member is the id of the
    caller, on the success path and on every error path of
    [processRequest]; for any other id no response is returned, and
    while there is no processor the fixed response is returned, which
    has no [request_id]. *)
Theorem process_request_echoes_id p prompt request_id clk :
  (Utf8.valid request_id = true ->
   exists r,
     snd (process_request (Some p) prompt request_id clk) = ret r /\
     r !! "request_id" = Some (JString request_id)) /\
  (Utf8.valid request_id = false ->
   exists what,
     snd (process_request (Some p) prompt request_id clk) = throw what) /\
  snd (process_request None prompt request_id clk)
  = ret not_initialized_response.
Proof.
  unfold process_request.
  pose proof (processRequest_cases p prompt request_id clk) as H.
  destruct (processRequest p prompt request_id clk) as [p' [r|what]];
    simpl in *.
  - destruct H as [Hid H]. split; [|split; [congruence | done]].
    intros _. exists r. split; [done|].
    destruct H as [(text & t & now & ->)|(what & now & ->)].
    + apply success_response_request_id.
    + apply error_response_request_id.
  - split; [congruence|]. split; [eauto | done].
Qed.

(** C7 (as amended): every envelope that [processRequest] returns has
    a boolean [success], a string [request_id], an integer [timestamp]
    and exactly one of the strings [response] and [error]; a success
    envelope has an integer [processing_time_ms] (and a [model] string),
    an error envelope has no [processing_time_ms].  No envelope is
    returned only when the request id is not well-formed UTF-8. *)
Theorem processRequest_envelope p prompt request_id clk :
  match snd (processRequest p prompt request_id clk) with
  | ret r => success_envelope r \/ error_envelope r
  | throw _ => Utf8.valid request_id = false
  end.
Proof.
  pose proof (processRequest_cases p prompt request_id clk) as H.
  destruct (snd (processRequest p prompt request_id clk)) as [r|what];
    [|done].
  destruct H as [_ [(text & t & now & ->)|(what & now & ->)]].
  - left. apply success_response_envelope.
  - right. apply error_response_envelope.
Qed.

(** C3 (as amended): when the evaluation of a generated token fails,
    after any number of tokens were produced and evaluated, the
    exception aborts the request and the tokens produced so far are
    dropped: the counters are not updated and the response is the error
    envelope with [success = false] and the message
    ["Failed to evaluate token"]; it has no [response] member and no
    incomplete mark, and none of its strings is anything but the request
    id and the message.  For a request id that is not well-formed UTF-8
    [dump()] throws in the handler and no response is returned. *)
Theorem generation_failure_response p prompt request_id clk model ctx
    prompt_tokens w1 remaining produced w token w' status :
  model_ p = Some model -> ctx_ p = Some ctx ->
  tokenize model prompt (start_world ctx)
  = (start_world ctx, ret prompt_tokens) ->
  eval_call prompt_tokens (Int.to_int (Z.of_nat (length prompt_tokens))) 0
            (n_threads (config_ p)) (start_world ctx) = (w1, ret 0) ->
  loop_steps model (n_threads (config_ p)) prompt_tokens
             (Z.to_nat (n_predict (config_ p))) [] w1
             (S remaining) produced w ->
  sample_token model w = (w, ret token) ->
  token <> llama_token_eos model ->
  eval_call [token] 1 (n_past_of prompt_tokens (produced ++ [token]))
            (n_threads (config_ p)) w = (w', ret status) ->
  status <> 0 ->
  let '(p', r) := processRequest p prompt request_id clk in
  counters_unchanged p p' /\
  if Utf8.valid request_id
  then exists e,
      r = ret e /\
      e = error_object "Failed to evaluate token" request_id
                       (epoch_now clk) /\
      e !! "success" = Some (JBool false) /\
      e !! "error" = Some (JString "Failed to evaluate token") /\
      e !! "response" = None /\
      e !! "incomplete" = None /\
      (forall k s, e !! k = Some (JString s) ->
         s = request_id \/ s = "Failed to evaluate token")
  else exists what, r = throw what.
Proof.
  intros Hm Hc Htok He0 Hsteps Hs Hne He Hst.
  assert (Hrun : run_inference model (config_ p) prompt (start_world ctx)
                 = (w', throw "Failed to evaluate token")).
  { unfold run_inference. unfold bind at 1. rewrite Htok.
    unfold bind at 1. rewrite (generate_prompt_ok _ _ _ _ _ He0).
    rewrite (loop_steps_run _ _ _ _ _ _ _ _ _ Hsteps).
    by rewrite (generate_loop_eval_failure _ _ _ _ _ _ _ _ _ Hs Hne He Hst). }
  rewrite (processRequest_throw _ _ _ _ _ _ _ _ Hm Hc Hrun).
  split; [done|].
  destruct (Utf8.valid request_id) eqn:Hid.
  - rewrite createErrorResponse_ok by (assumption || by vm_compute).
    eexists. split; [reflexivity|]. split; [reflexivity|].
    repeat split; try (unfold error_object; by simplify_map_eq).
    intros k s Hk. apply error_response_members in Hk.
    destruct Hk as [Hk|[Hk|[Hk|Hk]]]; inversion Hk; auto.
  - rewrite createErrorResponse_bad_id by done. by eexists.
Qed.

(** C1 (as amended): the counters follow the generation, not the
    answer.  When generation returns, the request is counted, one more
    request and prompt plus completion tokens more (while the 64-bit
    counters do not overflow), and then answered: with [success = true]
    when the text is well-formed UTF-8, with [success = false] when it
    is not.  A request refused because no model is loaded, or aborted
    by an exception of [tokenize] or [generate], is answered with
    [success = false] and leaves both counters as they were.  In every
    case the answer is missing when the request id is not well-formed
    UTF-8. *)
Theorem statistics_follow_outcome p prompt request_id clk :
  match request_outcome p prompt with
  | Some (toks, resp) => counters_fit p (length toks + length resp)
  | None => True
  end ->
  let '(p', r) := processRequest p prompt request_id clk in
  match request_outcome p prompt with
  | Some (toks, resp) =>
      counted p p' (length toks + length resp) /\
      forall model, model_ p = Some model ->
        if Utf8.valid request_id
        then exists e,
            r = ret e /\
            e !! "success"
            = Some (JBool (Utf8.valid (detokenize model resp)))
        else exists what, r = throw what
  | None =>
      counters_unchanged p p' /\
      if Utf8.valid request_id
      then exists e, r = ret e /\ e !! "success" = Some (JBool false)
      else exists what, r = throw what
  end.
Proof.
  assert (Herr : forall what now,
            Utf8.valid what = true ->
            if Utf8.valid request_id
            then exists e, createErrorResponse what request_id now = ret e /\
                           e !! "success" = Some (JBool false)
            else exists msg : string,
                createErrorResponse what request_id now = throw msg).
  { intros what now Hw. destruct (Utf8.valid request_id) eqn:Hid.
    - rewrite createErrorResponse_ok by assumption.
      eexists. split; [reflexivity|]. unfold error_object. by simplify_map_eq.
    - rewrite createErrorResponse_bad_id by done. by eexists. }
  unfold request_outcome.
  destruct (isModelLoaded p) eqn:Hl.
  - unfold isModelLoaded in Hl.
    destruct (model_ p) as [model|] eqn:Hm; [|done].
    destruct (ctx_ p) as [ctx|] eqn:Hc; [|done].
    destruct (run_inference model (config_ p) prompt (start_world ctx))
      as [w [[toks resp]|what]] eqn:Hr.
    + intros (Hreq & Htok0 & Htok).
      rewrite (processRequest_ret _ _ _ _ _ _ _ _ _ Hm Hc Hr). split.
      * unfold counted, update_statistics, Int.LLONG_MAX in *. simpl.
        rewrite !to_llong_small; unfold Int.LLONG_MAX; lia.
      * intros ? [= <-]. rewrite returned_generation_response.
        destruct (Utf8.valid request_id), (Utf8.valid (detokenize model resp));
          [eexists; split; [reflexivity|];
           unfold success_object; by simplify_map_eq
          |eexists; split; [reflexivity|];
           unfold error_object; by simplify_map_eq
          |by eexists|by eexists].
    + intros _. rewrite (processRequest_throw _ _ _ _ _ _ _ _ Hm Hc Hr).
      split; [done|]. apply Herr, exception_text_utf8.
      by eapply run_inference_throw.
  - intros _. rewrite processRequest_not_loaded by done.
    assert (match model_ p, ctx_ p with
            | Some model, Some ctx =>
                match run_inference model (config_ p) prompt
                                    (start_world ctx) with
                | (_, ret r) => Some r
                | (_, throw _) => None
                end
            | _, _ => None
            end = None) as ->.
    { unfold isModelLoaded in Hl. by destruct (model_ p), (ctx_ p). }
    split; [done|]. apply Herr. by vm_compute.
Qed.

(** C6 (as amended): with [n_predict = 5], when the end-of-sequence
    token is the third token sampled, generation stops there after three
    evaluations and returns the two tokens sampled before it; the
    request is counted with its prompt tokens and these two.  When the
    text of the two tokens is well-formed UTF-8 the response has
    [success = true] and that text; when it is not, [dump()] throws and
    the response has [success = false] and no text.  Neither envelope
    has a [completion_tokens] member, and for a request id that is not
    well-formed UTF-8 no response is returned. *)
Theorem eos_as_third_token p prompt request_id clk model ctx
    prompt_tokens w1 w2 w3 t1 t2 :
  model_ p = Some model -> ctx_ p = Some ctx ->
  n_predict (config_ p) = 5 ->
  tokenize model prompt (start_world ctx)
  = (start_world ctx, ret prompt_tokens) ->
  eval_call prompt_tokens (Int.to_int (Z.of_nat (length prompt_tokens))) 0
            (n_threads (config_ p)) (start_world ctx) = (w1, ret 0) ->
  sample_token model w1 = (w1, ret t1) ->
  t1 <> llama_token_eos model ->
  eval_call [t1] 1 (n_past_of prompt_tokens [t1])
            (n_threads (config_ p)) w1 = (w2, ret 0) ->
  sample_token model w2 = (w2, ret t2) ->
  t2 <> llama_token_eos model ->
  eval_call [t2] 1 (n_past_of prompt_tokens [t1; t2])
            (n_threads (config_ p)) w2 = (w3, ret 0) ->
  sample_token model w3 = (w3, ret (llama_token_eos model)) ->
  counters_fit p (length prompt_tokens + 2) ->
  let '(p', r) := processRequest p prompt request_id clk in
  request_outcome p prompt = Some (prompt_tokens, [t1; t2]) /\
  length (evals_of_request p prompt) = 3%nat /\
  counted p p' (length prompt_tokens + 2) /\
  if Utf8.valid request_id
  then exists e,
      r = ret e /\
      e !! "completion_tokens" = None /\
      if Utf8.valid (detokenize model [t1; t2])
      then e = success_object (detokenize model [t1; t2]) request_id
                              (elapsed_ms clk) (epoch_now clk) /\
           e !! "success" = Some (JBool true) /\
           e !! "response" = Some (JString (detokenize model [t1; t2]))
      else e !! "success" = Some (JBool false) /\
           e !! "response" = None
  else exists what, r = throw what.
Proof.
  intros Hm Hc Hn Htok He0 Hs1 Hne1 He1 Hs2 Hne2 He2 Hs3 Hfit.
  assert (Hrun : run_inference model (config_ p) prompt (start_world ctx)
                 = (w3, ret (prompt_tokens, [t1; t2]))).
  { unfold run_inference. unfold bind at 1. rewrite Htok.
    unfold bind at 1. rewrite (generate_prompt_ok _ _ _ _ _ He0), Hn.
    change (Z.to_nat 5) with 5%nat.
    rewrite (generate_loop_step _ _ _ _ [] _ _ _ Hs1 Hne1 He1).
    rewrite (generate_loop_step _ _ _ _ [t1] _ _ _ Hs2 Hne2 He2).
    by rewrite (generate_loop_eos _ _ _ _ _ _ Hs3). }
  rewrite (processRequest_ret _ _ _ _ _ _ _ _ _ Hm Hc Hrun).
  unfold request_outcome, evals_of_request. rewrite Hm, Hc, Hrun.
  cbn [fst snd]. split; [done|]. split.
  { apply (f_equal (fun x => w_evals (fst x))) in He0, He1, He2.
    rewrite eval_call_log in He0, He1, He2. cbn [fst] in He0, He1, He2.
    by rewrite <- He2, <- He1, <- He0. }
  split.
  { destruct Hfit as (Hreq & Htok0 & Hmax).
    unfold counted, update_statistics, Int.LLONG_MAX in *. simpl.
    rewrite !to_llong_small; unfold Int.LLONG_MAX; lia. }
  rewrite returned_generation_response.
  destruct (Utf8.valid request_id); [|by eexists].
  destruct (Utf8.valid (detokenize model [t1; t2])).
  - eexists. split; [reflexivity|].
    unfold success_object. repeat split; by simplify_map_eq.
  - eexists. split; [reflexivity|].
    unfold error_object. repeat split; by simplify_map_eq.
Qed.

End Requests.
(** ** The interactive loop *)

Section Interactive.

Context `{L : Llama} {J : Library}.

Implicit Types (p : GGUFProcessor) (lines : list (string * Clock)).

Lemma local_ids_cons (first : Z) (n : nat) :
  local_ids first (S n) = local_id (first + 1) :: local_ids (first + 1) n.
Proof.
  unfold local_ids. simpl. f_equal.
  rewrite <- seq_shift, map_map. apply map_ext. intros k.
  f_equal. lia.
Qed.

(** A line that is empty changes nothing: no request, no id. *)
Lemma interactive_loop_empty_line clk lines (n : Z) p :
  interactive_loop (("", clk) :: lines) n p = interactive_loop lines n p.
Proof. reflexivity. Qed.

Lemma interactive_loop_quit prompt clk lines (n : Z) p :
  prompt = "quit" \/ prompt = "exit" ->
  interactive_loop ((prompt, clk) :: lines) n p = ([], n, p, AtQuit).
Proof. intros Hq. simpl. by rewrite bool_decide_eq_true_2. Qed.

Lemma entered_prompts_quit prompt clk lines :
  prompt = "quit" \/ prompt = "exit" ->
  entered_prompts ((prompt, clk) :: lines) = [].
Proof.
  intros Hq. unfold entered_prompts, is_quit. simpl.
  unfold is_quit. by rewrite bool_decide_eq_true_2.
Qed.

Lemma entered_prompts_empty clk lines :
  entered_prompts (("", clk) :: lines) = entered_prompts lines.
Proof. reflexivity. Qed.

Lemma entered_prompts_cons prompt clk lines :
  ~ (prompt = "quit" \/ prompt = "exit") -> prompt <> "" ->
  entered_prompts ((prompt, clk) :: lines) = prompt :: entered_prompts lines.
Proof.
  intros Hq He. unfold entered_prompts. simpl. unfold is_quit.
  rewrite bool_decide_eq_false_2 by done. simpl.
  by rewrite filter_cons_True.
Qed.

Lemma interactive_loop_ids lines :
  forall (n : Z) p,
    0 <= n ->
    n + Z.of_nat (length (entered_prompts lines)) <= Int.INT_MAX ->
    let '(subs, n', _, e) := interactive_loop lines n p in
    map sub_prompt subs = entered_prompts lines /\
    map sub_request_id subs = local_ids n (length (entered_prompts lines)) /\
    n' = n + Z.of_nat (length (entered_prompts lines)) /\
    e = if existsb is_quit (map fst lines) then AtQuit else OutOfLines.
Proof.
  induction lines as [|[prompt clk] lines IH]; intros n p Hn Hmax.
  - simpl. repeat split. lia.
  - cbn [map fst existsb].
    destruct (decide (prompt = "quit" \/ prompt = "exit")) as [Hq|Hq].
    { rewrite interactive_loop_quit, entered_prompts_quit by done.
      unfold is_quit. rewrite bool_decide_eq_true_2 by done.
      simpl. repeat split. lia. }
    unfold is_quit at 1. rewrite bool_decide_eq_false_2 by done.
    cbn [orb].
    destruct (decide (prompt = "")) as [->|He].
    { rewrite interactive_loop_empty_line, entered_prompts_empty in *.
      by apply IH. }
    rewrite entered_prompts_cons in * by done. cbn [length] in *.
    cbn [interactive_loop]. rewrite bool_decide_eq_false_2 by done.
    rewrite bool_decide_eq_false_2 by done.
    rewrite to_int_small by (unfold Int.INT_MAX in *; lia).
    destruct (processRequest_answers p prompt (local_id (n + 1)) clk
                (local_id_utf8 (n + 1))) as [result Hres].
    destruct (processRequest p prompt _ clk) as [p' r]. simpl in Hres.
    subst r.
    specialize (IH (n + 1) p' ltac:(lia) ltac:(lia)).
    destruct (interactive_loop lines (n + 1) p') as [[[subs n'] p''] e].
    destruct IH as (IH1 & IH2 & IH3 & IH4).
    cbn [map sub_prompt sub_request_id].
    rewrite local_ids_cons.
    repeat split; [by f_equal | by f_equal | lia | done].
Qed.

(** C10: in the interactive loop an empty line is skipped, it submits
    no request and takes no request id; the requests submitted are the
    prompts that are not empty, in the order entered, and their ids are
    [local_1], [local_2], ... in that order. *)
Theorem interactive_loop_numbering p lines :
  Z.of_nat (length (entered_prompts lines)) <= Int.INT_MAX ->
  let '(subs, n, _, _) := interactive_loop lines 0 p in
  map sub_prompt subs = entered_prompts lines /\
  map sub_request_id subs = local_ids 0 (length (entered_prompts lines)) /\
  n = Z.of_nat (length (entered_prompts lines)) /\
  (forall clk rest (n0 : Z) p0,
     interactive_loop (("", clk) :: rest) n0 p0
     = interactive_loop rest n0 p0).
Proof.
  intros Hmax.
  pose proof (interactive_loop_ids lines 0 p ltac:(lia) ltac:(lia)) as H.
  destruct (interactive_loop lines 0 p) as [[[subs n] p'] e].
  destruct H as (H1 & H2 & H3 & _). repeat split; [done | done | lia].
Qed.

End Interactive.

(** ** Runs of the scripted backend *)

Module Runs.

Import Scripted.

(** Closed goals are settled by evaluation. *)
Ltac run_eq := vm_compute; reflexivity.
Ltac run_ne := let H := fresh in intros H; vm_compute in H; discriminate H.

Lemma model_not_loaded_response_witness :
  let p := fst (@initialize (backend no_model) new_processor "missing.gguf") in
  isModelLoaded p = false /\
  let '(p', r) := processRequest p "Hello" "req-1" clock in
  total_requests_processed_ p' = total_requests_processed_ p /\
  total_tokens_processed_ p' = total_tokens_processed_ p /\
  average_processing_time_ p' = average_processing_time_ p /\
  p' = p /\
  if Utf8.valid "req-1"
  then exists e,
      r = ret e /\
      e !! "success" = Some (JBool false) /\
      e !! "error" = Some (JString "Model not loaded") /\
      e !! "request_id" = Some (JString "req-1")
  else exists what, r = throw what.
Proof.
  split; [reflexivity|].
  apply (@model_not_loaded_response (backend no_model) (library no_model)
           (fst (initialize new_processor "missing.gguf"))
           "Hello" "req-1" clock).
  reflexivity.
Defined.

Lemma process_request_echoes_id_witness :
  Utf8.valid "req-1" = true /\
  exists r,
    snd (process_request (Some (loaded eos_third)) "Hello" "req-1" clock)
    = ret r /\
    r !! "request_id" = Some (JString "req-1").
Proof.
  split; [reflexivity|].
  apply (proj1 (@process_request_echoes_id (backend eos_third)
                  (library eos_third) (loaded eos_third)
                  "Hello" "req-1" clock)).
  reflexivity.
Defined.

Lemma generate_eval_bound_witness :
  let w := @start_world (backend eos_third) 0%nat in
  0 <= n_predict config5 /\
  Z.of_nat (length (w_evals (fst (@generate (backend eos_third) tt config5
                                     [1; 72] w))))
  <= Z.of_nat (length (w_evals w)) + (n_predict config5 + 1).
Proof.
  split; [simpl; lia|].
  apply (@generate_eval_bound (backend eos_third) tt config5 [1; 72]
           (@start_world (backend eos_third) 0%nat)).
  simpl; lia.
Defined.

Lemma generation_failure_response_witness :
  let p := loaded fails_second in
  let '(p', r) := processRequest p "Hello" "req-1" clock in
  counters_unchanged p p' /\
  if Utf8.valid "req-1"
  then exists e,
      r = ret e /\
      e = error_object "Failed to evaluate token" "req-1"
                       (epoch_now clock) /\
      e !! "success" = Some (JBool false) /\
      e !! "error" = Some (JString "Failed to evaluate token") /\
      e !! "response" = None /\
      e !! "incomplete" = None /\
      (forall k s, e !! k = Some (JString s) ->
         s = "req-1" \/ s = "Failed to evaluate token")
  else exists what, r = throw what.
Proof.
  apply (@generation_failure_response (backend fails_second)
           (library fails_second)
           (loaded fails_second) "Hello" "req-1" clock tt 0%nat
           [1; 72; 101; 108; 108; 111]
           (@Build_World (backend fails_second) 1%nat
              [([1; 72; 101; 108; 108; 111], 0)])
           3%nat [72]
           (@Build_World (backend fails_second) 2%nat
              [([72], 7); ([1; 72; 101; 108; 108; 111], 0)])
           105
           (@Build_World (backend fails_second) 3%nat
              [([105], 8); ([72], 7); ([1; 72; 101; 108; 108; 111], 0)])
           1);
    try first [reflexivity | discriminate].
  apply (@steps_next (backend fails_second) tt 4 [1; 72; 101; 108; 108; 111]
           4%nat []
           (@Build_World (backend fails_second) 1%nat
              [([1; 72; 101; 108; 108; 111], 0)])
           72
           (@Build_World (backend fails_second) 2%nat
              [([72], 7); ([1; 72; 101; 108; 108; 111], 0)]));
    try first [reflexivity | discriminate].
  apply steps_none.
Defined.

Lemma statistics_follow_outcome_witness :
  let p := loaded eos_third in
  request_outcome p "Hello" = Some ([1; 72; 101; 108; 108; 111], [72; 105]) /\
  counters_fit p 8 /\
  let '(p', r) := processRequest p "Hello" "req-1" clock in
  match request_outcome p "Hello" with
  | Some (toks, resp) =>
      counted p p' (length toks + length resp) /\
      forall model, model_ p = Some model ->
        if Utf8.valid "req-1"
        then exists e,
            r = ret e /\
            e !! "success"
            = Some (JBool (Utf8.valid (detokenize model resp)))
        else exists what, r = throw what
  | None =>
      counters_unchanged p p' /\
      if Utf8.valid "req-1"
      then exists e, r = ret e /\ e !! "success" = Some (JBool false)
      else exists what, r = throw what
  end.
Proof.
  assert (Hfit : counters_fit (loaded eos_third) 8)
    by (unfold counters_fit, Int.LLONG_MAX; simpl; lia).
  split; [reflexivity|]. split; [exact Hfit|].
  apply (@statistics_follow_outcome (backend eos_third) (library eos_third)
           (loaded eos_third) "Hello" "req-1" clock).
  exact Hfit.
Defined.

Lemma eos_as_third_token_witness :
  let p := loaded eos_third in
  let '(p', r) := processRequest p "Hello" "req-1" clock in
  request_outcome p "Hello" = Some ([1; 72; 101; 108; 108; 111], [72; 105]) /\
  length (evals_of_request p "Hello") = 3%nat /\
  counted p p' (length [1; 72; 101; 108; 108; 111] + 2) /\
  if Utf8.valid "req-1"
  then exists e,
      r = ret e /\
      e !! "completion_tokens" = None /\
      if Utf8.valid (@detokenize (backend eos_third) tt [72; 105])
      then e = success_object (@detokenize (backend eos_third) tt [72; 105])
                              "req-1" (elapsed_ms clock) (epoch_now clock) /\
           e !! "success" = Some (JBool true) /\
           e !! "response"
           = Some (JString (@detokenize (backend eos_third) tt [72; 105]))
      else e !! "success" = Some (JBool false) /\
           e !! "response" = None
  else exists what, r = throw what.
Proof.
  apply (@eos_as_third_token (backend eos_third) (library eos_third)
           (loaded eos_third)
           "Hello" "req-1" clock tt 0%nat [1; 72; 101; 108; 108; 111]
           (@Build_World (backend eos_third) 1%nat
              [([1; 72; 101; 108; 108; 111], 0)])
           (@Build_World (backend eos_third) 2%nat
              [([72], 7); ([1; 72; 101; 108; 108; 111], 0)])
           (@Build_World (backend eos_third) 3%nat
              [([105], 8); ([72], 7); ([1; 72; 101; 108; 108; 111], 0)])
           72 105);
    try first [reflexivity | discriminate].
  unfold counters_fit, Int.LLONG_MAX. simpl. lia.
Defined.

Lemma interactive_loop_numbering_witness :
  let p := loaded eos_third in
  entered_prompts demo_lines = ["Hello"; "Hi"] /\
  local_ids 0 2 = ["local_1"; "local_2"] /\
  let '(subs, n, _, _) := interactive_loop demo_lines 0 p in
  map sub_prompt subs = entered_prompts demo_lines /\
  map sub_request_id subs
  = local_ids 0 (length (entered_prompts demo_lines)) /\
  n = Z.of_nat (length (entered_prompts demo_lines)) /\
  (forall clk rest (n0 : Z) p0,
     @interactive_loop (backend eos_third) (library eos_third)
                       (("", clk) :: rest) n0 p0
     = interactive_loop rest n0 p0).
Proof.
  split; [reflexivity|]. split; [reflexivity|].
  apply (@interactive_loop_numbering (backend eos_third) (library eos_third)
           (loaded eos_third) demo_lines).
  vm_compute. discriminate.
Defined.

(** C1 (as stated) fails on both error paths: a request refused
    because no model is loaded and a request aborted by a failed
    evaluation leave [total_requests_processed_] where it was, so it does
    not grow by one. *)
Lemma failed_requests_not_counted :
  (let p := @new_processor (backend no_model) in
   isModelLoaded p = false /\
   total_requests_processed_ (fst (processRequest p "Hello" "req-1" clock))
   = total_requests_processed_ p /\
   forall n, ~ counted p (fst (processRequest p "Hello" "req-1" clock)) n) /\
  (let p := loaded fails_second in
   snd (processRequest p "Hello" "req-1" clock)
   = ret (error_object "Failed to evaluate token" "req-1" (epoch_now clock)) /\
   total_requests_processed_ (fst (processRequest p "Hello" "req-1" clock))
   = total_requests_processed_ p /\
   forall n, ~ counted p (fst (processRequest p "Hello" "req-1" clock)) n).
Proof.
  split; (split; [run_eq|]); (split; [run_eq|]);
    intros n [Hreq _]; vm_compute in Hreq; discriminate Hreq.
Qed.

(** C2 (as stated) fails while no processor exists: the fixed response
    of [process_request] has no [request_id] member; and it fails for a
    request id that is not well-formed UTF-8, for which [dump()] throws
    and nothing is returned. *)
Lemma uninitialized_response_has_no_id :
  (snd (@process_request (backend eos_third) (library eos_third) None
          "Hello" "req-1" clock) = ret not_initialized_response /\
   not_initialized_response !! "request_id" = None /\
   not_initialized_response !! "request_id" <> Some (JString "req-1")) /\
  (Utf8.valid bad_id = false /\
   snd (process_request (Some (loaded eos_third)) "Hello" bad_id clock)
   = throw type_error_text /\
   ~ exists r,
       snd (process_request (Some (loaded eos_third)) "Hello" bad_id clock)
       = ret r).
Proof.
  split.
  - split; [run_eq|]. split; [run_eq | run_ne].
  - split; [run_eq|]. split; [run_eq|].
    intros [r Hr]. vm_compute in Hr. discriminate Hr.
Qed.

(** C3 (as stated) fails: the evaluation of the second generated token
    fails after the tokens of "Hi" were produced, and the response
    holds neither that text nor an incomplete mark. *)
Lemma partial_output_lost :
  let p := loaded fails_second in
  let r := error_object "Failed to evaluate token" "req-1"
                        (epoch_now clock) in
  snd (processRequest p "Hello" "req-1" clock) = ret r /\
  map fst (evals_of_request p "Hello")
  = [[105]; [72]; [1; 72; 101; 108; 108; 111]] /\
  @detokenize (backend fails_second) tt [72; 105] = "Hi" /\
  (forall k, r !! k <> Some (JString "Hi")) /\
  (forall k, r !! k <> Some (JString "H")) /\
  ~ partial_output_returned r "Hi" /\
  ~ partial_output_returned r "H".
Proof.
  assert (Hno : forall s,
            s <> "req-1" -> s <> "Failed to evaluate token" ->
            forall k, error_object "Failed to evaluate token" "req-1"
                                   (epoch_now clock) !! k
                      <> Some (JString s)).
  { intros s H1 H2 k Hk. apply error_response_members in Hk.
    destruct Hk as [Hk|[Hk|[Hk|Hk]]]; inversion Hk; congruence. }
  split; [run_eq|]. split; [run_eq|]. split; [run_eq|].
  split; [by apply Hno|]. split; [by apply Hno|].
  split; intros [[k Hk] _]; by apply Hno in Hk.
Qed.

(** C6 (as stated) fails in its last part: in the scenario the
    response has [success = true] and two tokens were generated, but no
    member of the envelope reports [completion_tokens = 2]. *)
Lemma completion_tokens_not_reported :
  let p := loaded eos_third in
  let r := success_object "Hi" "req-1" (elapsed_ms clock) (epoch_now clock) in
  n_predict (config_ p) = 5 /\
  request_outcome p "Hello" = Some ([1; 72; 101; 108; 108; 111], [72; 105]) /\
  snd (processRequest p "Hello" "req-1" clock) = ret r /\
  r !! "success" = Some (JBool true) /\
  r !! "response" = Some (JString "Hi") /\
  r !! "completion_tokens" = None /\
  ~ (r !! "completion_tokens" = Some (JInt 2) /\
     r !! "success" = Some (JBool true)).
Proof.
  split; [run_eq|]. split; [run_eq|]. split; [run_eq|].
  split; [run_eq|]. split; [run_eq|]. split; [run_eq|].
  intros [H _]. vm_compute in H. discriminate H.
Qed.

(** C7 (as stated) fails on error outcomes: the error envelope has no
    [processing_time_ms] member. *)
Lemma error_envelope_not_full :
  let r := error_object "Model not loaded" "req-1" (epoch_now clock) in
  snd (processRequest (@new_processor (backend no_model))
         "Hello" "req-1" clock) = ret r /\
  r !! "success" = Some (JBool false) /\
  r !! "processing_time_ms" = None /\
  ~ full_envelope r.
Proof.
  split; [run_eq|]. split; [run_eq|]. split; [run_eq|].
  intros (_ & _ & _ & [z Hz] & _). vm_compute in Hz. discriminate Hz.
Qed.

(** C9 (as stated) fails for a request id that is not well-formed
    UTF-8: with no model loaded, [createErrorResponse] is called outside
    the [try] block, [dump()] throws on the id, and [processRequest]
    returns no response. *)
Lemma not_loaded_bad_id_no_response :
  let p := @new_processor (backend no_model) in
  isModelLoaded p = false /\
  Utf8.valid bad_id = false /\
  snd (processRequest p "Hello" bad_id clock) = throw type_error_text /\
  ~ exists e,
      snd (processRequest p "Hello" bad_id clock) = ret e /\
      e !! "request_id" = Some (JString bad_id).
Proof.
  split; [run_eq|]. split; [run_eq|]. split; [run_eq|].
  intros [e [He _]]. vm_compute in He. discriminate He.
Qed.

End Runs.
(** * Further properties of the code *)

(** ** The sampler on arbitrary logits *)

Lemma SFltb_not_nan (a b : spec_float) :
  SFltb a b = true -> Float.is_nan a = false /\ Float.is_nan b = false.
Proof. by destruct a, b. Qed.

Lemma gt_irrefl (a : spec_float) : Float.gt a a = false.
Proof.
  unfold Float.gt. destruct (SFltb a a) eqn:E; [|done].
  destruct (SFltb_not_nan _ _ E) as [Ha _].
  apply SFltb_key in E; [|done..]. revert E. unfold Float.key_lt.
  destruct (Float.key a) as [[? ?] ?]. lia.
Qed.

(** Replacing the best logit by a greater one keeps every logit that
    did not exceed the old one from exceeding the new one. *)
Lemma gt_false_mono (b x y : spec_float) :
  Float.gt x b = true -> Float.gt y b = false -> Float.gt y x = false.
Proof.
  unfold Float.gt. intros Hbx Hby.
  destruct (SFltb_not_nan _ _ Hbx) as [Hb Hx].
  destruct (SFltb x y) eqn:E; [|done].
  destruct (SFltb_not_nan _ _ E) as [_ Hy].
  apply SFltb_key in Hbx, E; [|done..].
  assert (~ Float.key_lt (Float.key b) (Float.key y)) as Hn.
  { intros Hlt. apply SFltb_key in Hlt; [|done..]. congruence. }
  revert Hbx E Hn. unfold Float.key_lt.
  destruct (Float.key b) as [[? ?] ?], (Float.key x) as [[? ?] ?],
    (Float.key y) as [[? ?] ?]. lia.
Qed.

Lemma sample_fold_range (logits : list spec_float) (l : list nat) :
  forall (best : Z * spec_float) (k : Z),
    0 <= fst best < k ->
    Forall (fun i => Z.of_nat i < k) l ->
    0 <= fst (fold_left (sample_step logits) l best) < k.
Proof.
  induction l as [|i l IH]; intros best k Hb Hl; [done|].
  inversion Hl as [|? ? Hi Hl']; subst. simpl. apply IH; [|done].
  unfold sample_step. destruct (Float.gt _ _); simpl; lia.
Qed.

(** For every logits vector, NaNs included, the token returned by
    [sample_token] is a valid index: [0] when [n_vocab <= 1], and below
    [n_vocab] otherwise. *)
Theorem sample_token_in_range (logits : list spec_float) (n_vocab : Z) :
  (n_vocab <= 1 -> sample_token_of logits n_vocab = 0) /\
  (1 <= n_vocab -> 0 <= sample_token_of logits n_vocab < n_vocab).
Proof.
  unfold sample_token_of, sample_loop. split; intros Hn.
  - by replace (Z.to_nat n_vocab - 1)%nat with 0%nat by lia.
  - apply sample_fold_range; [simpl; lia|].
    apply Forall_forall. intros i Hi. apply elem_of_seq in Hi. lia.
Qed.

Lemma sample_token_in_range_witness :
  sample_token_of [S754_nan; Float.one; S754_nan] 0 = 0 /\
  0 <= sample_token_of [Float.zero; S754_nan; Float.one] 3 < 3.
Proof.
  split.
  - apply (proj1 (sample_token_in_range [S754_nan; Float.one; S754_nan] 0)).
    lia.
  - apply (proj2 (sample_token_in_range [Float.zero; S754_nan; Float.one] 3)).
    lia.
Defined.

Lemma sample_step_unbeaten (logits : list spec_float) (k : nat)
    (best : Z * spec_float) :
  unbeaten_so_far logits k best ->
  unbeaten_so_far logits (S k) (sample_step logits best k).
Proof.
  intros [Hb Hle]. unfold sample_step.
  destruct (Float.gt (logit_at logits k) (snd best)) eqn:Hgt.
  - split; simpl; [by rewrite Nat2Z.id|].
    intros j Hj. destruct (decide (j = k)) as [->|Hne].
    + apply gt_irrefl.
    + apply gt_false_mono with (snd best); [done|]. apply Hle. lia.
  - split; [done|]. intros j Hj. destruct (decide (j = k)) as [->|Hne].
    + done.
    + apply Hle. lia.
Qed.

Lemma sample_loop_unbeaten (logits : list spec_float) (m : nat) :
  unbeaten_so_far logits (S m)
    (fold_left (sample_step logits) (seq 1 m) (0, logit_at logits 0%nat)).
Proof.
  induction m as [|m IH].
  - split; [done|]. intros j Hj. replace j with 0%nat by lia.
    apply gt_irrefl.
  - rewrite seq_S, fold_left_app. simpl. by apply sample_step_unbeaten.
Qed.

(** For every logits vector of size [n_vocab >= 1], NaNs included, no
    logit compares greater than the logit of the token that
    [sample_token] returns. *)
Theorem sample_token_unbeaten (logits : list spec_float) (n_vocab : Z) :
  1 <= n_vocab ->
  Z.of_nat (length logits) = n_vocab ->
  forall j : nat, (j < length logits)%nat ->
    Float.gt (logit_at logits j)
             (logit_at logits (Z.to_nat (sample_token_of logits n_vocab)))
    = false.
Proof.
  intros Hn Hlen j Hj.
  destruct (sample_loop_unbeaten logits (Z.to_nat n_vocab - 1)) as [Hb Hle].
  unfold sample_token_of, sample_loop. rewrite <- Hb. apply Hle. lia.
Qed.

Lemma sample_token_unbeaten_witness :
  Float.gt (logit_at [Float.zero; S754_nan; Float.one] 1)
           (logit_at [Float.zero; S754_nan; Float.one]
              (Z.to_nat (sample_token_of
                           [Float.zero; S754_nan; Float.one] 3)))
  = false.
Proof.
  apply (sample_token_unbeaten [Float.zero; S754_nan; Float.one] 3).
  - lia.
  - reflexivity.
  - simpl. lia.
Defined.

Lemma sample_fold_nan (logits : list spec_float) (l : list nat) :
  fold_left (sample_step logits) l (0, S754_nan) = (0, S754_nan).
Proof.
  induction l as [|i l IH]; [done|]. cbn [fold_left].
  replace (sample_step logits (0, S754_nan) i) with (0, S754_nan : spec_float);
    [exact IH|].
  unfold sample_step. cbn [snd]. by rewrite gt_nan_r.
Qed.

(** A NaN in the first slot masks every other logit: [sample_token]
    returns token 0 whatever the rest of the vector holds. *)
Theorem sample_token_nan_first (logits : list spec_float) (n_vocab : Z) :
  logit_at logits 0 = S754_nan ->
  sample_token_of logits n_vocab = 0.
Proof.
  intros H0. unfold sample_token_of, sample_loop.
  by rewrite H0, sample_fold_nan.
Qed.

Lemma sample_token_nan_first_witness :
  sample_token_of [S754_nan; Float.one; S754_infinity false] 3 = 0.
Proof.
  apply (sample_token_nan_first [S754_nan; Float.one; S754_infinity false] 3).
  reflexivity.
Defined.

(** ** Tokens in, tokens out *)

Section Tokens.

Context `{L : Llama}.

Implicit Types (p : GGUFProcessor) (prompt request_id : string) (clk : Clock).
Implicit Types (model : llama_model) (w : World) (c : Config).

Lemma length_resize (n : nat) (buf : list Z) : length (resize n buf) = n.
Proof.
  unfold resize. rewrite length_app, length_firstn, repeat_length. lia.
Qed.

Lemma resize_shrink (n : nat) (buf : list Z) :
  (n <= length buf)%nat -> resize n buf = firstn n buf.
Proof.
  intros Hn. unfold resize.
  replace (n - length buf)%nat with 0%nat by lia. apply app_nil_r.
Qed.

(** [tokenize] returns exactly as many tokens as the backend counted,
    the head of the buffer when the count fits it, and throws
    [std::length_error] when the count is negative; the context is not
    touched either way. *)
Theorem tokenize_count model text w :
  let '(n_tokens, buf) :=
    llama_tokenize model text (Z.of_nat (String.length text) + 4) in
  if n_tokens <? 0
  then tokenize model text w = (w, throw length_error_what)
  else exists toks,
      tokenize model text w = (w, ret toks) /\
      Z.of_nat (length toks) = n_tokens /\
      ((Z.to_nat n_tokens <= length buf)%nat ->
       toks = firstn (Z.to_nat n_tokens) buf).
Proof.
  unfold tokenize. destruct (llama_tokenize _ _ _) as [n buf].
  destruct (n <? 0) eqn:Hn; [done|].
  exists (resize (Z.to_nat n) buf). split; [done|]. split.
  - rewrite length_resize. apply Z.ltb_ge in Hn. lia.
  - apply resize_shrink.
Qed.

Lemma append_assoc (a b c : string) : (a +:+ b) +:+ c = a +:+ (b +:+ c).
Proof.
  induction a as [|x a IH]; [reflexivity|].
  change (String x ((a +:+ b) +:+ c) = String x (a +:+ (b +:+ c))).
  by rewrite IH.
Qed.

Lemma append_empty_r (a : string) : a +:+ "" = a.
Proof.
  induction a as [|x a IH]; [reflexivity|].
  change (String x (a +:+ "") = String x a). by rewrite IH.
Qed.

Lemma append_empty_l (a : string) : "" +:+ a = a.
Proof. reflexivity. Qed.

(** The text of one token: the piece when its count is positive,
    nothing otherwise. *)
Lemma detokenize_fold model (tokens : list Z) :
  forall acc : string,
    fold_left
      (fun result token =>
         let '(n_chars, buf) := llama_token_to_piece model token 256 in
         if 0 <? n_chars
         then (result +:+ String.substring 0 (Z.to_nat n_chars) buf)
         else result)
      tokens acc
    = acc +:+ detokenize model tokens.
Proof.
  unfold detokenize.
  match goal with |- context [fold_left ?F _ _] => set (step := F) end.
  induction tokens as [|t tokens IH]; intros acc.
  - cbn [fold_left]. by rewrite append_empty_r.
  - cbn [fold_left]. rewrite (IH (step acc t)), (IH (step "" t)).
    unfold step. destruct (llama_token_to_piece model t 256) as [n buf].
    destruct (0 <? n); rewrite ?append_empty_l; [by rewrite append_assoc | done].
Qed.

(** [detokenize] works token by token: the text of a concatenation of
    token lists is the concatenation of their texts (and the text of no
    tokens is empty). *)
Theorem detokenize_app model (a b : list Z) :
  detokenize model (a ++ b) = detokenize model a +:+ detokenize model b.
Proof.
  unfold detokenize at 1. rewrite fold_left_app. apply detokenize_fold.
Qed.

End Tokens.

(** ** What [generate] returns *)

Section GenerateReturns.

Context `{L : Llama}.

Implicit Types (p : GGUFProcessor) (prompt request_id : string) (clk : Clock).
Implicit Types (model : llama_model) (w : World) (c : Config).

(** A run of the loop that returns: the tokens added to [produced],
    at most one per iteration and none of them the end-of-sequence
    token, were each evaluated once, in order. *)
Lemma generate_loop_ret model n_thr prompt_tokens remaining :
  forall produced w w' resp,
    generate_loop model n_thr prompt_tokens remaining produced w
    = (w', ret resp) ->
    exists new,
      resp = produced ++ new /\
      (length new <= remaining)%nat /\
      Forall (fun token => token <> llama_token_eos model) new /\
      w_evals w' = rev (token_evals prompt_tokens produced new) ++ w_evals w.
Proof.
  induction remaining as [|k IH]; intros produced w w' resp H.
  - inversion H; subst. exists []. by rewrite app_nil_r.
  - cbn [generate_loop] in H. unfold bind at 1, sample_token at 1 in H.
    set (token := sample_token_of _ _) in H.
    destruct (token =? llama_token_eos model) eqn:Heos.
    { inversion H; subst. exists []. rewrite app_nil_r.
      repeat split; [simpl; lia | constructor]. }
    unfold bind in H.
    pose proof (eval_call_log [token] 1
                  (n_past_of prompt_tokens (produced ++ [token])) n_thr w)
      as Hlog.
    destruct (eval_call _ _ _ _ w) as [w1 [status|what]]; [|done].
    simpl in Hlog. destruct (negb (status =? 0)); [done|].
    destruct (IH _ _ _ _ H) as (new & -> & Hlen & Hne & Hev).
    exists (token :: new). rewrite <- app_assoc. repeat split.
    + simpl. lia.
    + constructor; [by apply Z.eqb_neq | done].
    + rewrite Hev, Hlog. cbn [token_evals rev]. by rewrite <- app_assoc.
Qed.

Lemma token_evals_imap (prompt_tokens new : list Z) :
  forall produced,
    token_evals prompt_tokens produced new
    = imap (fun i token =>
              ([token],
               Int.to_int (Z.of_nat (length prompt_tokens
                                     + (length produced + i + 1)))))
           new.
Proof.
  induction new as [|t new IH]; intros produced; [done|].
  cbn [token_evals imap]. f_equal.
  - unfold n_past_of. rewrite length_app. simpl. do 3 f_equal. lia.
  - rewrite IH. apply imap_ext. intros i x _. simpl.
    rewrite length_app. simpl. do 3 f_equal. lia.
Qed.

(** When [generate] returns, it returns at most [n_predict] tokens
    (none for a count that is not positive), and the end-of-sequence
    token is never among them. *)
Theorem generate_output model c prompt_tokens w w' resp :
  generate model c prompt_tokens w = (w', ret resp) ->
  Z.of_nat (length resp) <= Z.max 0 (n_predict c) /\
  Forall (fun token => token <> llama_token_eos model) resp.
Proof.
  unfold generate, bind. intros H.
  destruct (eval_call _ _ _ _ w) as [w1 [status|what]]; [|done].
  destruct (negb (status =? 0)); [done|].
  destruct (generate_loop_ret _ _ _ _ _ _ _ _ H) as (new & -> & Hlen & Hne & _).
  split; [simpl; lia | done].
Qed.

(** When [generate] returns, its [llama_eval] calls were, in order:
    the whole prompt at position 0, then each returned token, once, the
    [i]-th of them (from 0) at position [prompt size + i + 1]; so the
    number of calls is the number of returned tokens plus one. *)
Theorem generate_evaluates_each_token model c prompt_tokens w w' resp :
  generate model c prompt_tokens w = (w', ret resp) ->
  rev (w_evals w')
  = rev (w_evals w)
    ++ (prompt_tokens, 0)
    :: imap (fun i token =>
               ([token],
                Int.to_int (Z.of_nat (length prompt_tokens + (i + 1)))))
            resp.
Proof.
  unfold generate, bind. intros H.
  pose proof (eval_call_log prompt_tokens
    (Int.to_int (Z.of_nat (length prompt_tokens))) 0 (n_threads c) w) as Hlog.
  destruct (eval_call _ _ _ _ w) as [w1 [status|what]]; [|done].
  simpl in Hlog. destruct (negb (status =? 0)); [done|].
  destruct (generate_loop_ret _ _ _ _ _ _ _ _ H) as (new & -> & _ & _ & Hev).
  rewrite Hev, Hlog, token_evals_imap. simpl.
  rewrite rev_app_distr, rev_involutive. simpl. by rewrite <- app_assoc.
Qed.

End GenerateReturns.

(** ** The processor across requests *)

Section Lifetime.

Context `{L : Llama} {J : Library}.

Implicit Types (p : GGUFProcessor) (prompt request_id : string) (clk : Clock).
Implicit Types (model : llama_model) (w : World) (c : Config).

Lemma initialize_reports_loaded p model_path :
  snd (initialize p model_path) = isModelLoaded (fst (initialize p model_path)).
Proof.
  unfold initialize. simpl.
  destruct (llama_load_model_from_file _ _ _ _) as [m|]; [|done].
  by destruct (llama_new_context_with_model _ _ _ _).
Qed.

Lemma initialize_records p model_path :
  model_path_ (fst (initialize p model_path)) = model_path /\
  model_hash_ (fst (initialize p model_path))
  = "QmXT2xkFnG7FP7NTfmDfDFcQLSfCJ3xfPnjCg76gFnq1Hr".
Proof.
  unfold initialize. simpl.
  destruct (llama_load_model_from_file _ _ _ _) as [m|]; [|done].
  by destruct (llama_new_context_with_model _ _ _ _).
Qed.

(** [initialize] returns [true] exactly when it leaves a model and a
    context in place; it records the path and the fixed hash, and
    touches neither the statistics nor the configuration. *)
Theorem initialize_result p model_path :
  let '(p', ok) := initialize p model_path in
  ok = isModelLoaded p' /\
  model_path_ p' = model_path /\
  model_hash_ p' = "QmXT2xkFnG7FP7NTfmDfDFcQLSfCJ3xfPnjCg76gFnq1Hr" /\
  total_requests_processed_ p' = total_requests_processed_ p /\
  total_tokens_processed_ p' = total_tokens_processed_ p /\
  average_processing_time_ p' = average_processing_time_ p /\
  config_ p' = config_ p.
Proof.
  unfold initialize. simpl.
  destruct (llama_load_model_from_file _ _ _ _) as [m|]; [|done].
  by destruct (llama_new_context_with_model _ _ _ _).
Qed.

(** The statistics can be serialised when the recorded path and hash
    are well-formed UTF-8: every other string of the object is a
    literal. *)
Lemma getStats_utf8 p :
  stats_utf8 (getStats p)
  = Utf8.valid (model_path_ p) && Utf8.valid (model_hash_ p).
Proof.
  unfold stats_utf8, getStats.
  destruct (Utf8.valid (model_path_ p)) eqn:Hp,
           (Utf8.valid (model_hash_ p)) eqn:Hh; simpl.
  - apply bool_decide_eq_true_2.
    apply map_Forall_insert_2.
    { split; [done|]. simpl. unfold members_utf8.
      apply bool_decide_eq_true_2.
      repeat (apply map_Forall_insert_2; [by split|]).
      apply map_Forall_empty. }
    repeat (apply map_Forall_insert_2; [by split|]). apply map_Forall_empty.
  - apply bool_decide_eq_false_2. intros H.
    destruct (H "model_hash" (Leaf (SString (model_hash_ p)))
                ltac:(by simplify_map_eq)) as [_ H'].
    simpl in H'. congruence.
  - apply bool_decide_eq_false_2. intros H.
    destruct (H "model_path" (Leaf (SString (model_path_ p)))
                ltac:(by simplify_map_eq)) as [_ H'].
    simpl in H'. congruence.
  - apply bool_decide_eq_false_2. intros H.
    destruct (H "model_path" (Leaf (SString (model_path_ p)))
                ltac:(by simplify_map_eq)) as [_ H'].
    simpl in H'. congruence.
Qed.

(** When [initialize_processor] reports failure the processor exists
    all the same, without a model.  A request is then refused with
    ["Model not loaded"] and leaves the processor as it is; a request
    id that is not well-formed UTF-8 makes [process_request] throw
    instead.  The statistics say [model_loaded = false], unless the
    model path is not well-formed UTF-8: then [get_processor_stats]
    throws. *)
Theorem failed_initialization_refuses model_path g prompt request_id clk :
  initialize_processor model_path = (g, false) ->
  snd (process_request g prompt request_id clk)
  = (if Utf8.valid request_id
     then ret (error_object "Model not loaded" request_id (epoch_now clk))
     else throw (type_error_what
                   (error_object "Model not loaded" request_id
                                 (epoch_now clk)))) /\
  fst (process_request g prompt request_id clk) = g /\
  exists p,
    g = Some p /\
    getStats p !! "model_loaded" = Some (Leaf (SBool false)) /\
    get_processor_stats g
    = if Utf8.valid model_path then ret (getStats p)
      else throw (stats_type_error_what (getStats p)).
Proof.
  unfold initialize_processor.
  pose proof (initialize_reports_loaded new_processor model_path) as Hok.
  pose proof (initialize_records new_processor model_path) as Hres.
  destruct (initialize new_processor model_path) as [p ok].
  simpl in Hok, Hres. destruct Hres as (Hpath & Hhash).
  intros [= <- ->]. symmetry in Hok.
  unfold process_request.
  rewrite processRequest_not_loaded by done. cbn [fst snd].
  split.
  { destruct (Utf8.valid request_id) eqn:Hid.
    - apply createErrorResponse_ok; [by vm_compute | done].
    - by apply createErrorResponse_bad_id. }
  split; [done|]. exists p. split; [done|].
  split.
  { unfold getStats. rewrite Hok. by simplify_map_eq. }
  unfold get_processor_stats. rewrite getStats_utf8, Hpath, Hhash.
  replace (Utf8.valid "QmXT2xkFnG7FP7NTfmDfDFcQLSfCJ3xfPnjCg76gFnq1Hr")
    with true by (by vm_compute).
  by rewrite andb_true_r.
Qed.

Lemma processRequest_stays_loaded p prompt request_id clk :
  isModelLoaded (fst (processRequest p prompt request_id clk))
  = isModelLoaded p.
Proof.
  destruct (isModelLoaded p) eqn:Hl.
  - unfold isModelLoaded in *.
    destruct (model_ p) as [model|] eqn:Hm; [|done].
    destruct (ctx_ p) as [ctx|] eqn:Hc; [|done].
    destruct (run_inference model (config_ p) prompt (start_world ctx))
      as [w [[toks resp]|what]] eqn:Hr.
    + by rewrite (processRequest_ret _ _ _ _ _ _ _ _ _ Hm Hc Hr).
    + by rewrite (processRequest_throw _ _ _ _ _ _ _ _ Hm Hc Hr).
  - by rewrite processRequest_not_loaded.
Qed.

(** A request changes the context the model evaluates on and, on
    success, the statistics; it never changes which model is loaded,
    whether one is loaded, the recorded path and hash, or the
    configuration, also when it ends in an exception. *)
Theorem processRequest_keeps_model p prompt request_id clk :
  let p' := fst (processRequest p prompt request_id clk) in
  model_ p' = model_ p /\
  isModelLoaded p' = isModelLoaded p /\
  model_path_ p' = model_path_ p /\
  model_hash_ p' = model_hash_ p /\
  config_ p' = config_ p.
Proof.
  cbv zeta. destruct (isModelLoaded p) eqn:Hl.
  - unfold isModelLoaded in *.
    destruct (model_ p) as [model|] eqn:Hm; [|done].
    destruct (ctx_ p) as [ctx|] eqn:Hc; [|done].
    destruct (run_inference model (config_ p) prompt (start_world ctx))
      as [w [[toks resp]|what]] eqn:Hr.
    + by rewrite (processRequest_ret _ _ _ _ _ _ _ _ _ Hm Hc Hr).
    + by rewrite (processRequest_throw _ _ _ _ _ _ _ _ Hm Hc Hr).
  - rewrite processRequest_not_loaded by done. cbn [fst].
    by rewrite Hl.
Qed.

(** A loaded processor serves the request, or throws on a request id
    that is not well-formed UTF-8, and stays loaded. *)
Lemma processRequest_loaded p prompt request_id clk :
  isModelLoaded p = true ->
  match snd (processRequest p prompt request_id clk) with
  | ret r => Utf8.valid request_id = true /\ served request_id clk r
  | throw _ => Utf8.valid request_id = false
  end /\
  isModelLoaded (fst (processRequest p prompt request_id clk)) = true.
Proof.
  intros Hl. split.
  - unfold isModelLoaded in Hl.
    destruct (model_ p) as [model|] eqn:Hm; [|done].
    destruct (ctx_ p) as [ctx|] eqn:Hc; [|done].
    destruct (run_inference model (config_ p) prompt (start_world ctx))
      as [w [[toks resp]|what]] eqn:Hr.
    + rewrite (processRequest_ret _ _ _ _ _ _ _ _ _ Hm Hc Hr). cbn [snd].
      rewrite returned_generation_response.
      destruct (Utf8.valid request_id);
        [|by destruct (Utf8.valid (detokenize model resp))].
      destruct (Utf8.valid (detokenize model resp)) eqn:Ht.
      * split; [reflexivity|]. left. by eexists.
      * split; [reflexivity|]. right. right. by eexists.
    + rewrite (processRequest_throw _ _ _ _ _ _ _ _ Hm Hc Hr). cbn [snd].
      pose proof (run_inference_throw _ _ _ _ _ _ Hr) as Hw.
      destruct (Utf8.valid request_id) eqn:Hid.
      * rewrite createErrorResponse_ok
          by (done || by apply exception_text_utf8).
        split; [reflexivity|]. right. left. by eexists.
      * by rewrite createErrorResponse_bad_id.
  - by rewrite processRequest_stays_loaded.
Qed.

(** A processor that holds a model never refuses.  For a request id
    that is well-formed UTF-8 it answers with a success, with the error
    envelope for one of the three exceptions of [tokenize] and
    [generate], or with the error envelope for the [type_error] that
    [dump()] throws on a generated text that is not well-formed UTF-8;
    for any other request id it throws. *)
Theorem loaded_processor_serves p prompt request_id clk :
  isModelLoaded p = true ->
  match snd (processRequest p prompt request_id clk) with
  | ret r => Utf8.valid request_id = true /\ served request_id clk r
  | throw _ => Utf8.valid request_id = false
  end.
Proof. intros Hl. by apply processRequest_loaded. Qed.

(** [unloadModel] leaves no model behind, is idempotent and keeps the
    statistics; a request made afterwards changes nothing and is
    refused with ["Model not loaded"], or throws when its id is not
    well-formed UTF-8. *)
Theorem unloadModel_refuses p prompt request_id clk :
  isModelLoaded (unloadModel p) = false /\
  model_ (unloadModel p) = None /\ ctx_ (unloadModel p) = None /\
  unloadModel (unloadModel p) = unloadModel p /\
  total_requests_processed_ (unloadModel p) = total_requests_processed_ p /\
  total_tokens_processed_ (unloadModel p) = total_tokens_processed_ p /\
  processRequest (unloadModel p) prompt request_id clk
  = (unloadModel p,
     if Utf8.valid request_id
     then ret (error_object "Model not loaded" request_id (epoch_now clk))
     else throw (type_error_what
                   (error_object "Model not loaded" request_id
                                 (epoch_now clk)))).
Proof.
  assert (Hm : model_ (unloadModel p) = None /\ ctx_ (unloadModel p) = None).
  { unfold unloadModel.
    destruct (ctx_ p) eqn:Hc, (model_ p) eqn:Hm; simpl;
      rewrite ?Hc, ?Hm; simpl; rewrite ?Hc, ?Hm; done. }
  destruct Hm as [Hm Hc].
  assert (Hl : isModelLoaded (unloadModel p) = false)
    by (unfold isModelLoaded; by rewrite Hm).
  split; [done|]. split; [done|]. split; [done|].
  split; [|split; [|split]].
  - unfold unloadModel at 1. rewrite Hc. cbv zeta. by rewrite Hm.
  - unfold unloadModel.
    destruct (ctx_ p) eqn:Hc', (model_ p) eqn:Hm'; simpl;
      rewrite ?Hc', ?Hm'; done.
  - unfold unloadModel.
    destruct (ctx_ p) eqn:Hc', (model_ p) eqn:Hm'; simpl;
      rewrite ?Hc', ?Hm'; done.
  - rewrite processRequest_not_loaded by done. f_equal.
    destruct (Utf8.valid request_id) eqn:Hid.
    + apply createErrorResponse_ok; [by vm_compute | done].
    + by apply createErrorResponse_bad_id.
Qed.

End Lifetime.

(** ** Sessions of the interactive loop *)

Section Sessions.

Context `{L : Llama} {J : Library}.

Implicit Types (p : GGUFProcessor) (lines : list (string * Clock)).

Lemma succeeded_success (text request_id : string) (t now : Z) :
  succeeded (success_object text request_id t now) = true.
Proof. unfold succeeded, success_object. by simplify_map_eq. Qed.

Lemma succeeded_error (error request_id : string) (now : Z) :
  succeeded (error_object error request_id now) = false.
Proof. unfold succeeded, error_object. by simplify_map_eq. Qed.

(** The request counter after a request that was answered: it grew by
    one exactly when the generation returned. *)
Lemma processRequest_requests p prompt request_id clk r :
  snd (processRequest p prompt request_id clk) = ret r ->
  let s := {| sub_request_id := request_id; sub_prompt := prompt;
              sub_result := r |} in
  answered_generation s /\
  total_requests_processed_ (fst (processRequest p prompt request_id clk))
  = Int.to_llong (total_requests_processed_ p + 1) \/
  answered_failure s /\
  total_requests_processed_ (fst (processRequest p prompt request_id clk))
  = total_requests_processed_ p.
Proof.
  cbv zeta. unfold answered_generation, answered_failure. cbn [sub_result
    sub_request_id].
  destruct (isModelLoaded p) eqn:Hl.
  - unfold isModelLoaded in Hl.
    destruct (model_ p) as [model|] eqn:Hm; [|done].
    destruct (ctx_ p) as [ctx|] eqn:Hc; [|done].
    destruct (run_inference model (config_ p) prompt (start_world ctx))
      as [w [[toks resp]|what]] eqn:Hr.
    + rewrite (processRequest_ret _ _ _ _ _ _ _ _ _ Hm Hc Hr). cbn [fst snd].
      rewrite returned_generation_response.
      destruct (Utf8.valid request_id); [|discriminate].
      destruct (Utf8.valid (detokenize model resp)) eqn:Ht;
        intros [= <-]; left; (split; [|reflexivity]).
      * left. by eexists _, _, _.
      * right. by eexists _, _, _, _.
    + rewrite (processRequest_throw _ _ _ _ _ _ _ _ Hm Hc Hr). cbn [fst snd].
      pose proof (run_inference_throw _ _ _ _ _ _ Hr) as Hw.
      destruct (Utf8.valid request_id) eqn:Hid.
      * rewrite createErrorResponse_ok
          by (done || by apply exception_text_utf8).
        intros [= <-]. right. split; [|reflexivity].
        exists what, (epoch_now clk). split; [by right | reflexivity].
      * by rewrite createErrorResponse_bad_id.
  - rewrite processRequest_not_loaded by done. cbn [fst snd].
    destruct (Utf8.valid request_id) eqn:Hid.
    + rewrite createErrorResponse_ok by (done || by vm_compute).
      intros [= <-]. right. split; [|reflexivity].
      exists "Model not loaded", (epoch_now clk).
      split; [by left | reflexivity].
    + by rewrite createErrorResponse_bad_id.
Qed.

(** Nothing that follows [quit] or [exit] is read: submissions, counter
    and processor are those of the run over the lines before it, and
    the loop is left there unless an exception left it before. *)
Theorem interactive_loop_stops_at_quit lines q clk rest (n : Z) p :
  q = "quit" \/ q = "exit" ->
  fst (interactive_loop (lines ++ (q, clk) :: rest) n p)
  = fst (interactive_loop lines n p) /\
  snd (interactive_loop (lines ++ (q, clk) :: rest) n p)
  = match snd (interactive_loop lines n p) with
    | OutOfLines => AtQuit
    | e => e
    end.
Proof.
  intros Hq. revert n p.
  induction lines as [|[prompt c] lines IH]; intros n p.
  - cbn [app]. by rewrite interactive_loop_quit.
  - cbn [app interactive_loop]. case_bool_decide; [done|].
    case_bool_decide; [apply IH|].
    destruct (processRequest p prompt _ c) as [p' [result|what]]; [|done].
    specialize (IH (Int.to_int (n + 1)) p').
    destruct (interactive_loop (lines ++ _) _ p') as [[[subs1 n1] p1] e1].
    destruct (interactive_loop lines _ p') as [[[subs2 n2] p2] e2].
    cbn [fst snd] in *. destruct IH as [[= -> -> ->] ->]. done.
Qed.

Lemma local_id_inj (a b : Z) : local_id a = local_id b -> a = b.
Proof.
  unfold local_id. intros H. apply (inj (String.app "local_")) in H.
  by apply (inj pretty) in H.
Qed.

Lemma NoDup_local_ids (first : Z) (n : nat) : NoDup (local_ids first n).
Proof.
  unfold local_ids. apply (NoDup_fmap_2_strong _).
  - intros a b _ _ H. apply local_id_inj in H. lia.
  - apply NoDup_seq.
Qed.

Lemma interactive_loop_echo lines :
  forall (n : Z) p,
    Forall (fun s => sub_result s !! "request_id"
                     = Some (JString (sub_request_id s)))
           (fst (fst (fst (interactive_loop lines n p)))).
Proof.
  induction lines as [|[prompt clk] lines IH]; intros n p; [constructor|].
  cbn [interactive_loop]. case_bool_decide; [constructor|].
  case_bool_decide; [apply IH|].
  set (request_id := local_id _).
  pose proof (processRequest_cases p prompt request_id clk) as Hc.
  destruct (processRequest p prompt request_id clk) as [p' [result|what]];
    [|constructor].
  specialize (IH (Int.to_int (n + 1)) p').
  destruct (interactive_loop lines _ p') as [[[subs n'] p''] e].
  cbn [fst snd] in *.
  constructor; [|done]. cbn [sub_result sub_request_id].
  destruct Hc as [_ [(text & t & now & ->)|(what & now & ->)]].
  - apply success_response_request_id.
  - apply error_response_request_id.
Qed.

(** In a session of at most [INT_MAX] requests the request ids are
    pairwise distinct, and each response carries the id of its own
    request. *)
Theorem interactive_ids_distinct p lines :
  Z.of_nat (length (entered_prompts lines)) <= Int.INT_MAX ->
  let '(subs, _, _, _) := interactive_loop lines 0 p in
  NoDup (map sub_request_id subs) /\
  Forall (fun s => sub_result s !! "request_id"
                   = Some (JString (sub_request_id s))) subs.
Proof.
  intros Hmax.
  pose proof (interactive_loop_ids lines 0 p ltac:(lia) ltac:(lia)) as Hids.
  pose proof (interactive_loop_echo lines 0 p) as Hecho.
  destruct (interactive_loop lines 0 p) as [[[subs n] p'] e].
  destruct Hids as (_ & -> & _). split; [apply NoDup_local_ids | done].
Qed.

Lemma successes_cons (s : Submission) (subs : list Submission) :
  successes (s :: subs)
  = ((if succeeded (sub_result s) then 1 else 0) + successes subs)%nat.
Proof.
  unfold successes. destruct (succeeded (sub_result s)) eqn:E.
  - by rewrite filter_cons_True.
  - rewrite filter_cons_False; [done|]. by rewrite E.
Qed.

Lemma count_true_cons (b : bool) (flags : list bool) :
  count_true (b :: flags)
  = ((if b then 1 else 0) + count_true flags)%nat.
Proof.
  unfold count_true. destruct b.
  - by rewrite filter_cons_True.
  - by rewrite filter_cons_False.
Qed.

Lemma answered_failure_not_succeeded (s : Submission) :
  answered_failure s -> succeeded (sub_result s) = false.
Proof. intros (what & now & _ & ->). apply succeeded_error. Qed.

Lemma interactive_loop_requests lines :
  forall (n : Z) p,
    0 <= total_requests_processed_ p ->
    total_requests_processed_ p + Z.of_nat (length lines) <= Int.LLONG_MAX ->
    let '(subs, _, p', _) := interactive_loop lines n p in
    exists returned : list bool,
      Forall2 (fun s (b : bool) =>
                 if b then answered_generation s else answered_failure s)
              subs returned /\
      total_requests_processed_ p'
      = total_requests_processed_ p + Z.of_nat (count_true returned) /\
      (successes subs <= count_true returned <= length subs)%nat.
Proof.
  induction lines as [|[prompt clk] lines IH]; intros n p H0 Hmax.
  - exists []. split; [constructor|]. unfold count_true, successes.
    simpl. lia.
  - cbn [length] in Hmax. cbn [interactive_loop].
    case_bool_decide.
    { exists []. split; [constructor|]. unfold count_true, successes.
      simpl. lia. }
    case_bool_decide; [apply IH; lia|].
    set (request_id := local_id _).
    destruct (processRequest_answers p prompt request_id clk
                (local_id_utf8 _)) as [result Hres].
    pose proof (processRequest_requests p prompt request_id clk result Hres)
      as Hreq.
    destruct (processRequest p prompt request_id clk) as [p' r].
    cbn [snd] in Hres. subst r. cbv zeta in Hreq. cbn [fst] in Hreq.
    assert (exists b : bool,
               (if b then answered_generation
                           {| sub_request_id := request_id;
                              sub_prompt := prompt; sub_result := result |}
                else answered_failure
                       {| sub_request_id := request_id;
                          sub_prompt := prompt; sub_result := result |}) /\
               total_requests_processed_ p'
               = total_requests_processed_ p + (if b then 1 else 0))
      as (b & Hb & Hp').
    { destruct Hreq as [[Hg Hc]|[Hf Hc]].
      - exists true. split; [done|]. rewrite Hc.
        apply to_llong_small. unfold Int.LLONG_MAX in *. lia.
      - exists false. split; [done|]. lia. }
    specialize (IH (Int.to_int (n + 1)) p').
    destruct (interactive_loop lines _ p') as [[[subs n'] p''] e].
    destruct IH as (returned & Hall & Htotal & Hle1 & Hle2);
      [destruct b; lia | destruct b; lia |].
    exists (b :: returned). split; [by constructor|].
    rewrite count_true_cons, successes_cons. cbn [sub_result length].
    split; [destruct b; lia|].
    destruct b.
    + destruct (succeeded result); lia.
    + pose proof (answered_failure_not_succeeded _ Hb) as Hf.
      cbn [sub_result] in Hf. rewrite Hf. lia.
Qed.

(** After a session, [getStats] reports as [total_requests] the count
    at its start plus the number of requests whose generation returned
    (as long as the counter stays within [long long]).  Each of those
    was answered with a success or, when [dump()] threw on its text,
    with the report of that [type_error] and [success = false]; the
    requests refused or failed in generation are not counted.  So the
    count grows by at least the number of successes and at most the
    number of requests. *)
Theorem session_request_count p lines (n : Z) :
  0 <= total_requests_processed_ p ->
  total_requests_processed_ p + Z.of_nat (length lines) <= Int.LLONG_MAX ->
  let '(subs, _, p', _) := interactive_loop lines n p in
  exists returned : list bool,
    Forall2 (fun s (b : bool) =>
               if b then answered_generation s else answered_failure s)
            subs returned /\
    getStats p' !! "total_requests"
    = Some (Leaf (SInt (total_requests_processed_ p
                        + Z.of_nat (count_true returned)))) /\
    (successes subs <= count_true returned <= length subs)%nat /\
    (forall s, get_processor_stats (Some p') = ret s ->
               s !! "total_requests" = getStats p' !! "total_requests").
Proof.
  intros H0 Hmax.
  pose proof (interactive_loop_requests lines n p H0 Hmax) as H.
  destruct (interactive_loop lines n p) as [[[subs n'] p'] e].
  destruct H as (returned & Hall & Htotal & Hle).
  exists returned. split; [done|]. split.
  { unfold getStats. rewrite <- Htotal. by simplify_map_eq. }
  split; [done|].
  intros s. unfold get_processor_stats.
  destruct (stats_utf8 (getStats p')); [|done]. by intros [= <-].
Qed.




End Sessions.

(** ** Edges of a request *)

Section Edges.

Context `{L : Llama} {J : Library}.

Implicit Types (p : GGUFProcessor) (prompt request_id : string) (clk : Clock).
Implicit Types (model : llama_model) (w : World) (c : Config).

Lemma sample_token_of_range (logits : list spec_float) (n_vocab : Z) :
  1 <= n_vocab -> 0 <= sample_token_of logits n_vocab < n_vocab.
Proof.
  intros Hn. unfold sample_token_of, sample_loop.
  apply sample_fold_range; [simpl; lia|].
  apply Forall_forall. intros i Hi. apply elem_of_seq in Hi. lia.
Qed.

Lemma generate_loop_vocabulary model n_thr prompt_tokens remaining :
  1 <= llama_n_vocab model ->
  forall produced w w' resp,
    generate_loop model n_thr prompt_tokens remaining produced w
    = (w', ret resp) ->
    Forall (fun token => 0 <= token < llama_n_vocab model) produced ->
    Forall (fun token => 0 <= token < llama_n_vocab model) resp.
Proof.
  intros Hv. induction remaining as [|k IH]; intros produced w w' resp H Hp.
  - by inversion H; subst.
  - cbn [generate_loop] in H. unfold bind at 1, sample_token at 1 in H.
    set (token := sample_token_of _ _) in H.
    assert (0 <= token < llama_n_vocab model) as Ht
      by by apply sample_token_of_range.
    destruct (token =? llama_token_eos model); [by inversion H; subst|].
    unfold bind in H.
    destruct (eval_call _ _ _ _ w) as [w1 [status|what]]; [|done].
    destruct (negb (status =? 0)); [done|].
    apply (IH _ _ _ _ H). apply Forall_app. split; [done|].
    by constructor.
Qed.

(** Every token that [generate] returns is an index of the vocabulary
    (for a vocabulary that is not empty). *)
Theorem generated_tokens_in_vocabulary model c prompt_tokens w w' resp :
  1 <= llama_n_vocab model ->
  generate model c prompt_tokens w = (w', ret resp) ->
  Forall (fun token => 0 <= token < llama_n_vocab model) resp.
Proof.
  intros Hv. unfold generate, bind. intros H.
  destruct (eval_call _ _ _ _ w) as [w1 [status|what]]; [|done].
  destruct (negb (status =? 0)); [done|].
  by apply (generate_loop_vocabulary _ _ _ _ Hv _ _ _ _ H).
Qed.

(** When the evaluation of the prompt fails nothing is sampled: the
    request ends after that one call with the error
    ["Failed to evaluate prompt"], or, for a request id that is not
    well-formed UTF-8, with the [type_error] of [dump()] thrown from
    the handler. *)
Theorem prompt_failure_response p prompt request_id clk model ctx
    prompt_tokens w1 status :
  model_ p = Some model -> ctx_ p = Some ctx ->
  tokenize model prompt (start_world ctx)
  = (start_world ctx, ret prompt_tokens) ->
  eval_call prompt_tokens (Int.to_int (Z.of_nat (length prompt_tokens))) 0
            (n_threads (config_ p)) (start_world ctx) = (w1, ret status) ->
  status <> 0 ->
  snd (processRequest p prompt request_id clk)
  = (if Utf8.valid request_id
     then ret (error_object "Failed to evaluate prompt" request_id
                            (epoch_now clk))
     else throw (type_error_what
                   (error_object "Failed to evaluate prompt" request_id
                                 (epoch_now clk)))) /\
  evals_of_request p prompt = [(prompt_tokens, 0)] /\
  request_outcome p prompt = None.
Proof.
  intros Hm Hc Htok He Hst.
  assert (Hrun : run_inference model (config_ p) prompt (start_world ctx)
                 = (w1, throw "Failed to evaluate prompt")).
  { unfold run_inference. unfold bind at 1. rewrite Htok.
    unfold bind at 1.
    by rewrite (generate_prompt_failure _ _ _ _ _ _ He Hst). }
  rewrite (processRequest_throw _ _ _ _ _ _ _ _ Hm Hc Hrun).
  unfold evals_of_request, request_outcome. rewrite Hm, Hc, Hrun.
  cbn [fst snd].
  split; [|split; [|done]].
  - destruct (Utf8.valid request_id) eqn:Hid.
    + apply createErrorResponse_ok; [by vm_compute | done].
    + by apply createErrorResponse_bad_id.
  - apply (f_equal (fun x => w_evals (fst x))) in He.
    by rewrite eval_call_log in He.
Qed.


(** After [shutdown_processor], whatever the processor was, requests
    and statistics get the fixed "not initialized" answers and no
    processor comes back. *)
Theorem shutdown_then_requests (g : option GGUFProcessor)
    prompt request_id clk :
  process_request (shutdown_processor g) prompt request_id clk
  = (None, ret not_initialized_response) /\
  get_processor_stats (shutdown_processor g) = ret stats_not_initialized /\
  not_initialized_response !! "request_id" = None /\
  shutdown_processor (shutdown_processor g) = shutdown_processor g.
Proof. by destruct g. Qed.

End Edges.

(** ** More runs of the scripted backend *)

Module MoreRuns.

Import Scripted.

Ltac run_eq := vm_compute; reflexivity.

Lemma failed_initialization_refuses_witness :
  let g := fst (@initialize_processor (backend no_model) "missing.gguf") in
  @initialize_processor (backend no_model) "missing.gguf" = (g, false) /\
  snd (process_request g "Hello" "req-1" clock)
  = (if Utf8.valid "req-1"
     then ret (error_object "Model not loaded" "req-1" (epoch_now clock))
     else throw (@type_error_what (backend no_model) (library no_model)
                   (error_object "Model not loaded" "req-1"
                                 (epoch_now clock)))) /\
  fst (process_request g "Hello" "req-1" clock) = g /\
  exists p,
    g = Some p /\
    getStats p !! "model_loaded" = Some (Leaf (SBool false)) /\
    get_processor_stats g
    = if Utf8.valid "missing.gguf" then ret (getStats p)
      else throw (@stats_type_error_what (backend no_model)
                    (library no_model) (getStats p)).
Proof.
  split; [reflexivity|].
  apply (@failed_initialization_refuses (backend no_model) (library no_model)
           "missing.gguf"
           (fst (@initialize_processor (backend no_model) "missing.gguf"))
           "Hello" "req-1" clock).
  reflexivity.
Defined.

Lemma generate_output_witness :
  let w := @start_world (backend eos_third) 0%nat in
  let w' := @Build_World (backend eos_third) 3%nat
              [([105], 8); ([72], 7); ([1; 72; 101; 108; 108; 111], 0)] in
  @generate (backend eos_third) tt config5 [1; 72; 101; 108; 108; 111] w
  = (w', ret [72; 105]) /\
  Z.of_nat (length [72; 105]) <= Z.max 0 (n_predict config5) /\
  Forall (fun token => token <> @llama_token_eos (backend eos_third) tt)
         [72; 105].
Proof.
  split; [reflexivity|].
  apply (@generate_output (backend eos_third) tt config5
           [1; 72; 101; 108; 108; 111]
           (@start_world (backend eos_third) 0%nat)
           (@Build_World (backend eos_third) 3%nat
              [([105], 8); ([72], 7); ([1; 72; 101; 108; 108; 111], 0)])
           [72; 105]).
  reflexivity.
Defined.

Lemma generate_evaluates_each_token_witness :
  let w := @start_world (backend eos_third) 0%nat in
  let w' := @Build_World (backend eos_third) 3%nat
              [([105], 8); ([72], 7); ([1; 72; 101; 108; 108; 111], 0)] in
  rev (w_evals w')
  = rev (w_evals w)
    ++ ([1; 72; 101; 108; 108; 111], 0)
    :: imap (fun i token =>
               ([token],
                Int.to_int
                  (Z.of_nat (length [1; 72; 101; 108; 108; 111] + (i + 1)))))
            [72; 105].
Proof.
  apply (@generate_evaluates_each_token (backend eos_third) tt config5
           [1; 72; 101; 108; 108; 111]
           (@start_world (backend eos_third) 0%nat)
           (@Build_World (backend eos_third) 3%nat
              [([105], 8); ([72], 7); ([1; 72; 101; 108; 108; 111], 0)])
           [72; 105]).
  reflexivity.
Defined.

Lemma loaded_processor_serves_witness :
  isModelLoaded (loaded bad_text) = true /\
  match snd (processRequest (loaded bad_text) "Hello" "req-1" clock) with
  | ret r =>
      Utf8.valid "req-1" = true /\
      @served (backend bad_text) (library bad_text) "req-1" clock r
  | throw _ => Utf8.valid "req-1" = false
  end.
Proof.
  split; [reflexivity|].
  apply (@loaded_processor_serves (backend bad_text) (library bad_text)
           (loaded bad_text) "Hello" "req-1" clock).
  reflexivity.
Defined.

Lemma interactive_loop_stops_at_quit_witness :
  let lines := [("Hello", clock); ("", clock); ("Hi", clock)] in
  ("quit" = "quit" \/ "quit" = "exit") /\
  fst (@interactive_loop (backend eos_third) (library eos_third)
         (lines ++ ("quit", clock) :: [("late", clock)])
         0 (loaded eos_third))
  = fst (@interactive_loop (backend eos_third) (library eos_third)
           lines 0 (loaded eos_third)) /\
  snd (@interactive_loop (backend eos_third) (library eos_third)
         (lines ++ ("quit", clock) :: [("late", clock)])
         0 (loaded eos_third))
  = match snd (@interactive_loop (backend eos_third) (library eos_third)
                 lines 0 (loaded eos_third)) with
    | OutOfLines => AtQuit
    | e => e
    end.
Proof.
  split; [by left|].
  apply (@interactive_loop_stops_at_quit (backend eos_third)
           (library eos_third)
           [("Hello", clock); ("", clock); ("Hi", clock)]
           "quit" clock [("late", clock)] 0 (loaded eos_third)).
  by left.
Defined.

Lemma interactive_ids_distinct_witness :
  Z.of_nat (length (entered_prompts demo_lines)) <= Int.INT_MAX /\
  let '(subs, _, _, _) :=
    @interactive_loop (backend eos_third) (library eos_third)
                      demo_lines 0 (loaded eos_third) in
  NoDup (map sub_request_id subs) /\
  Forall (fun s => sub_result s !! "request_id"
                   = Some (JString (sub_request_id s))) subs.
Proof.
  assert (H : Z.of_nat (length (entered_prompts demo_lines)) <= Int.INT_MAX)
    by (vm_compute; discriminate).
  split; [exact H|].
  exact (@interactive_ids_distinct (backend eos_third) (library eos_third)
           (loaded eos_third) demo_lines H).
Defined.

Lemma session_request_count_witness :
  0 <= total_requests_processed_ (loaded bad_text) /\
  total_requests_processed_ (loaded bad_text)
  + Z.of_nat (length demo_lines) <= Int.LLONG_MAX /\
  let '(subs, _, p', _) :=
    @interactive_loop (backend bad_text) (library bad_text)
                      demo_lines 0 (loaded bad_text) in
  exists returned : list bool,
    Forall2 (fun s (b : bool) =>
               if b then @answered_generation (backend bad_text)
                                              (library bad_text) s
               else @answered_failure (backend bad_text) s)
            subs returned /\
    getStats p' !! "total_requests"
    = Some (Leaf (SInt (total_requests_processed_ (loaded bad_text)
                        + Z.of_nat (count_true returned)))) /\
    (successes subs <= count_true returned <= length subs)%nat /\
    (forall s, get_processor_stats (Some p') = ret s ->
               s !! "total_requests" = getStats p' !! "total_requests").
Proof.
  assert (H0 : 0 <= total_requests_processed_ (loaded bad_text))
    by (vm_compute; discriminate).
  assert (H1 : total_requests_processed_ (loaded bad_text)
               + Z.of_nat (length demo_lines) <= Int.LLONG_MAX)
    by (vm_compute; discriminate).
  split; [exact H0|]. split; [exact H1|].
  exact (@session_request_count (backend bad_text) (library bad_text)
           (loaded bad_text) demo_lines 0 H0 H1).
Defined.

Lemma generated_tokens_in_vocabulary_witness :
  let w := @start_world (backend eos_third) 0%nat in
  let w' := @Build_World (backend eos_third) 3%nat
              [([105], 8); ([72], 7); ([1; 72; 101; 108; 108; 111], 0)] in
  1 <= @llama_n_vocab (backend eos_third) tt /\
  Forall (fun token => 0 <= token < @llama_n_vocab (backend eos_third) tt)
         [72; 105].
Proof.
  split; [vm_compute; discriminate|].
  apply (@generated_tokens_in_vocabulary (backend eos_third) tt config5
           [1; 72; 101; 108; 108; 111]
           (@start_world (backend eos_third) 0%nat)
           (@Build_World (backend eos_third) 3%nat
              [([105], 8); ([72], 7); ([1; 72; 101; 108; 108; 111], 0)])
           [72; 105]).
  - vm_compute; discriminate.
  - reflexivity.
Defined.

Lemma prompt_failure_response_witness :
  let p := loaded fails_prompt in
  snd (processRequest p "Hello" "req-1" clock)
  = (if Utf8.valid "req-1"
     then ret (error_object "Failed to evaluate prompt" "req-1"
                            (epoch_now clock))
     else throw (@type_error_what (backend fails_prompt)
                   (library fails_prompt)
                   (error_object "Failed to evaluate prompt" "req-1"
                                 (epoch_now clock)))) /\
  evals_of_request p "Hello" = [([1; 72; 101; 108; 108; 111], 0)] /\
  request_outcome p "Hello" = None.
Proof.
  apply (@prompt_failure_response (backend fails_prompt)
           (library fails_prompt)
           (loaded fails_prompt) "Hello" "req-1" clock tt 0%nat
           [1; 72; 101; 108; 108; 111]
           (@Build_World (backend fails_prompt) 1%nat
              [([1; 72; 101; 108; 108; 111], 0)])
           1);
    first [reflexivity | discriminate].
Defined.


(** A generated text that is not well-formed UTF-8: the request is
    counted, then [dump()] throws on the success envelope and the
    handler answers [success = false], stamped with its own clock
    reading. *)
Lemma counted_request_answered_as_failure :
  let p := loaded bad_text in
  let text := @detokenize (backend bad_text) tt [200] in
  request_outcome p "Hello" = Some ([1; 72; 101; 108; 108; 111], [200]) /\
  Utf8.valid text = false /\
  total_requests_processed_ p = 0 /\
  total_requests_processed_ (fst (processRequest p "Hello" "req-1" clock))
  = 1 /\
  total_tokens_processed_ (fst (processRequest p "Hello" "req-1" clock))
  = 7 /\
  snd (processRequest p "Hello" "req-1" clock)
  = ret (error_object type_error_text "req-1" (epoch_caught clock)) /\
  succeeded (error_object type_error_text "req-1" (epoch_caught clock))
  = false.
Proof. repeat (split; [run_eq|]). run_eq. Qed.

(** A request id that is not well-formed UTF-8 on a loaded processor:
    the request is counted as well, [dump()] throws on the success
    envelope, then again in the handler, and the exception leaves
    [processRequest]. *)
Lemma bad_id_counted_and_thrown :
  let p := loaded eos_third in
  Utf8.valid bad_id = false /\
  total_requests_processed_ (fst (processRequest p "Hello" bad_id clock))
  = 1 /\
  snd (processRequest p "Hello" bad_id clock) = throw type_error_text.
Proof. repeat (split; [run_eq|]). run_eq. Qed.

(** [main] on the scripted backend: status 1 without a model, status 0
    with the two requests of the session at [quit], and no return when
    the lines run out. *)
Lemma main_runs :
  @main (backend no_model) (library no_model) "missing.gguf" demo_lines
  = Some (1, []) /\
  option_map (fun r => (fst r, map sub_request_id (snd r)))
             (@main (backend eos_third) (library eos_third) "m.gguf"
                    demo_lines)
  = Some (0, ["local_1"; "local_2"]) /\
  @main (backend eos_third) (library eos_third) "m.gguf" [("Hello", clock)]
  = None.
Proof. repeat (split; [run_eq|]). run_eq. Qed.

End MoreRuns.
